(** * The Perfect Toast Machine: a shallow embedding of the firmware

    The Arduino sketches of the repository are modelled:
    - [perfect-toast-machine.ino], the deployed firmware (module [PTM]);
    - the rolling-window inference test (module [RollingTest]), which
      shares the window code of the firmware (module [Window]);
    - the toast odor data collection sketch with its debounced labelling
      button (module [DataCollection]);
    - the toaster control test (module [ControlTest]) and the static
      inference test (module [StaticTest]).

    Every sketch is a [loop] function called again and again by the Arduino
    runtime.  One call is modelled as a function from what the call reads
    from the outside world (clock, pins, sensors) and the static variables
    to the new static variables; what the call writes to the outside world
    (serial port, pins, display) is appended to a trace of events, from
    which the level of an output pin and the contents of the display are
    read back.

    C [float] is IEEE binary32 and [double] binary64; both are modelled with
    the executable specification of the Standard Library ([SpecFloat]).
    [unsigned long] is 32 bits wide on the board, [uint8_t] 8 bits.  An
    array access out of bounds is undefined in C: it makes the modelled
    function return [None], and so does a [sprintf] that writes past the
    character array it formats into. *)

From Stdlib Require Import ZArith String Lia.
From Stdlib Require Import Floats.SpecFloat.
From stdpp Require Import base option list.

Local Open Scope Z_scope.

(** ** Floating point: C [float] and [double] *)

Module F32.

Definition float32 : Type := spec_float.
Definition float64 : Type := spec_float.

Definition prec32 : Z := 24.
Definition emax32 : Z := 128.
Definition prec64 : Z := 53.
Definition emax64 : Z := 1024.

Definition sub (x y : float32) : float32 := SFsub prec32 emax32 x y.
Definition div (x y : float32) : float32 := SFdiv prec32 emax32 x y.
Definition ltb (x y : float32) : bool := SFltb x y.

Definition mul64 (x y : float64) : float64 := SFmul prec64 emax64 x y.
Definition div64 (x y : float64) : float64 := SFdiv prec64 emax64 x y.
Definition add64 (x y : float64) : float64 := SFadd prec64 emax64 x y.

(** Integer to floating point conversions (round to nearest even). *)
Definition of_Z (z : Z) : float32 := binary_normalize prec32 emax32 z 0 false.
Definition of_Z64 (z : Z) : float64 := binary_normalize prec64 emax64 z 0 false.

(** [double] to [float] (rounds) and [float] to [double] (exact). *)
Definition of_double (x : float64) : float32 :=
  match x with
  | S754_finite s m e => binary_round prec32 emax32 s m e
  | _ => x
  end.
Definition to_double (x : float32) : float64 := x.

(** A decimal literal [n / d] of the source ([d] a power of ten), which
    C++ reads as a [double]. *)
Definition literal64 (n d : Z) : float64 := div64 (of_Z64 n) (of_Z64 d).
(** The same literal stored in a [float] object. *)
Definition literal (n d : Z) : float32 := of_double (literal64 n d).

(** [(int)x] for a [double] [x]: truncation toward zero.  Out of the range
    of [int], and for infinities and NaN, C leaves the result undefined. *)
Definition to_int (x : float64) : option Z :=
  match x with
  | S754_zero _ => Some 0
  | S754_finite s m e =>
      let z := Z.quot (cond_Zopp s (Z.pos m) * 2 ^ Z.max e 0) (2 ^ Z.max (- e) 0) in
      if (- 2 ^ 31 <=? z) && (z <? 2 ^ 31) then Some z else None
  | _ => None
  end.

Definition zero : float32 := S754_zero false.

Definition is_zero (x : float32) : bool :=
  match x with S754_zero _ => true | _ => false end.

End F32.

Abbreviation float32 := F32.float32.

(** ** What all sketches share of the Arduino core *)

Definition HIGH : Z := 1.
Definition LOW : Z := 0.

(** [unsigned long] arithmetic: 32 bits, wrapping. *)
Definition ULONG_MOD : Z := 2 ^ 32.
Definition ulong (z : Z) : Z := z mod ULONG_MOD.
Definition ulong_sub (a b : Z) : Z := ulong (a - b).

(** [uint8_t] arithmetic. *)
Definition uint8 (z : Z) : Z := z mod 256.

Definition DEBOUNCE_DELAY : Z := 30.
Definition SAMPLE_DELAY : Z := 500.

(** [(millis() - sample_timestamp) >= SAMPLE_DELAY], the gate of the
    sampling tick in every sketch. *)
Definition sample_due (now sample_timestamp : Z) : bool :=
  SAMPLE_DELAY <=? ulong_sub now sample_timestamp.

(** Modelled from the spec: the status constants of the vendor headers,
    which are not part of the repository: [STATUS_OK] of sensirion_common.h
    and [EIDSP_OK] of the inferencing library are both the "no error" code
    0; any other status is an error. *)
Definition STATUS_OK : Z := 0.
Definition EIDSP_OK : Z := 0.

(** What a sketch prints or draws: string literals and formatted numbers.
    The characters of a formatted number stay symbolic; where a sketch
    formats into a character array of its own, their number is computed
    (see [sprintf_0f] below). *)
Inductive text : Type :=
  | Lit (s : string)
  | Fmt_0f (x : float32)          (* sprintf "%.0f" *)
  | Fmt_5f (x : float32)          (* ei_printf "%.5f\r\n" *)
  | Fmt_i (z : Z)                 (* "%i", "%d", Serial.print of an integer *)
  | Fmt_float (x : float32)       (* Serial.print of a float *)
  | Fmt_double (x : F32.float64)  (* Serial.print of a double *)
  | Fmt_label (i : nat).          (* "%s" of ei_classifier_inferencing_categories[i] *)

Inductive pin : Type := TOASTING_PIN | CANCEL_PIN | BTN_PIN | NH3_PIN.

#[global] Instance pin_eq_dec : EqDecision pin.
Proof. solve_decision. Defined.

Inductive event : Type :=
  | Serial_print (t : text)
  | Serial_println (t : option text)
  | ei_printf (fmt : string) (args : list text)
  | digitalWrite (p : pin) (level : Z)
  | pinMode_output (p : pin)
  | delay (ms : Z)
  | spr_fillRect                                 (* whole sprite, TFT_BLACK *)
  | spr_drawString (t : text) (x y : Z)
  | spr_pushSprite
  | tft_fillScreen                               (* TFT_BLACK *)
  | tft_drawString (t : text) (x y : Z)
  | run_classifier_called.                       (* a call into the inferencing library *)

Arguments Lit s%_string.
Arguments ei_printf fmt%_string args.

(** The level an output pin drives after a trace: the last value written,
    LOW when the sketch has not written the pin yet. *)
Definition pin_step (p : pin) (lvl : Z) (ev : event) : Z :=
  match ev with
  | digitalWrite q v => if decide (q = p) then v else lvl
  | _ => lvl
  end.

Definition pin_level (p : pin) (tr : list event) : Z :=
  fold_left (pin_step p) tr LOW.

(** How often a trace writes a pin, and how often it runs the classifier. *)
Definition is_write (p : pin) (ev : event) : bool :=
  match ev with
  | digitalWrite q _ => bool_decide (q = p)
  | _ => false
  end.

Definition is_inference (ev : event) : bool :=
  match ev with run_classifier_called => true | _ => false end.

Definition writes (p : pin) (tr : list event) : nat :=
  length (List.filter (is_write p) tr).

Definition inferences (tr : list event) : nat :=
  length (List.filter is_inference tr).

(** Contents of the sprite buffer and of the LCD after a trace. *)
Definition screen : Type := list (text * Z * Z).

Definition display_step (d : screen * screen) (ev : event) : screen * screen :=
  let '(sprite, lcd) := d in
  match ev with
  | spr_fillRect => ([], lcd)
  | spr_drawString t x y => (sprite ++ [(t, x, y)], lcd)
  | spr_pushSprite => (sprite, sprite)
  | tft_fillScreen => (sprite, [])
  | tft_drawString t x y => (sprite, lcd ++ [(t, x, y)])
  | _ => d
  end.

Definition display (tr : list event) : screen * screen :=
  fold_left display_step tr ([], []).

Definition lcd (tr : list event) : screen := snd (display tr).

(** ** [sprintf] into a character array

    [sprintf(buf, "%.0f", x)] writes the decimal digits of [x] rounded to an
    integer, a minus sign when the sign bit is set, and a terminating NUL.
    The text itself stays symbolic; the number of characters is computed,
    because the sketches format into [char str_buf[20]]. *)

(** The integer nearest to [m * 2^e], ties to even (the number of its
    decimal digits is the same with ties away from zero). *)
Definition round_half_even (m : positive) (e : Z) : Z :=
  if 0 <=? e then Z.pos m * 2 ^ e
  else
    let d := 2 ^ (- e) in
    let q := Z.pos m / d in
    let r := Z.pos m mod d in
    match 2 * r ?= d with
    | Lt => q
    | Gt => q + 1
    | Eq => if Z.even q then q else q + 1
    end.

Fixpoint decimal_digits_upto (fuel : nat) (n : Z) : nat :=
  match fuel with
  | O => 1
  | S fuel => if n <? 10 then 1%nat else S (decimal_digits_upto fuel (n / 10))
  end.

(** The number of decimal digits of [n >= 0]; a number has no more decimal
    digits than binary ones. *)
Definition decimal_digits (n : Z) : nat :=
  decimal_digits_upto (Z.to_nat (Z.log2 n)) n.

(** Characters of the "%.0f" rendering of [x], the NUL not counted:
    "inf" and "nan" for the special values. *)
Definition fmt_0f_length (x : float32) : nat :=
  match x with
  | S754_zero s => (if s then 1 else 0) + 1
  | S754_infinity s => (if s then 1 else 0) + 3
  | S754_nan => 3
  | S754_finite s m e => (if s then 1 else 0) + decimal_digits (round_half_even m e)
  end%nat.

(** [sprintf(buf, "%.0f", x)] for [char buf[size]]: writing past the array
    is undefined. *)
Definition sprintf_0f (size : nat) (x : float32) : option text :=
  if (fmt_0f_length x + 1 <=? size)%nat then Some (Fmt_0f x) else None.

(** Characters of the "%i" rendering of an [int], and [sprintf(buf, "%i", z)]. *)
Definition fmt_i_length (z : Z) : nat :=
  ((if (z <? 0)%Z then 1 else 0) + decimal_digits (Z.abs z))%nat.

Definition sprintf_i (size : nat) (z : Z) : option text :=
  if (fmt_i_length z + 1 <=? size)%nat then Some (Fmt_i z) else None.

(** ** C arrays and [for] loops

    An access outside an array is undefined in C: reads and writes return
    [None] there, and a loop stops at the first such access. *)

Definition arr_set {A} (a : list A) (i : nat) (v : A) : option (list A) :=
  if decide (i < length a)%nat then Some (<[i:=v]> a) else None.

Fixpoint for_each {St} (idx : list nat) (body : nat -> St -> option St) (s : St)
  : option St :=
  match idx with
  | [] => Some s
  | i :: rest =>
      match body i s with
      | Some s' => for_each rest body s'
      | None => None
      end
  end.

(** [for (int i = lo; i < lo + n; i++) body] *)
Definition for_range {St} (lo n : nat) (body : nat -> St -> option St) (s : St)
  : option St :=
  for_each (seq lo n) body s.

(** ** The rolling window of standardized readings

    Shared, text for text, by the deployed firmware and the rolling-window
    inference test. *)

Module Window.

(** Modelled from the spec: [NUM_CHANNELS] is
    [EI_CLASSIFIER_RAW_SAMPLES_PER_FRAME] of the generated inferencing
    header, which is not part of the repository.  The nine channels are
    temperature, humidity, CO2, TVOC, VOC, NO2, ethanol, CO and NH3: the
    sketches fill [frame_buf[0]] to [frame_buf[8]] and give [means] and
    [std_devs] nine entries each. *)
Definition NUM_CHANNELS : nat := 9.

(** Metrics for standardizing the raw data:
    {temp, humd, co2, voc1, voc2, no2, eth, co, nh3}. *)
Definition means : list float32 :=
  Eval vm_compute in
    [ F32.literal 75502 1000; F32.literal 84883 10000;
      F32.literal 149139847 10000; F32.literal 329337305 10000;
      F32.literal 25958 10000; F32.literal 22113 10000;
      F32.literal 26475 10000; F32.literal 21576 10000;
      F32.literal 2277 1000 ].

Definition std_devs : list float32 :=
  Eval vm_compute in
    [ F32.literal 232281 10000; F32.literal 90292 10000;
      F32.literal 182308385 10000; F32.literal 244299224 10000;
      F32.literal 3656 10000; F32.literal 5479 10000;
      F32.literal 3673 10000; F32.literal 4927 10000;
      F32.literal 593 1000 ].

Definition ADC_MAX : Z := 1024.
Definition ADC_VOLTAGE : F32.float64 := Eval vm_compute in F32.literal64 33 10.

(** What one sampling tick reads from the three sensor subsystems and the
    analog ammonia channel.  The vendor drivers are outside the
    repository: their return values are inputs. *)
Record readings : Type := mkReadings {
  bme680_read_sensor_data : Z;     (* int8_t status, 0 on success *)
  bme680_temperature : float32;    (* bme680.sensor_result_value.temperature *)
  bme680_humidity : float32;       (* bme680.sensor_result_value.humidity *)
  bme680_pressure : float32;       (* bme680.sensor_result_value.pressure *)
  sgp_err : Z;                     (* int16_t status of sgp_measure_iaq_blocking_read *)
  sgp_tvoc : Z;                    (* uint16_t *)
  sgp_co2 : Z;                     (* uint16_t *)
  gm_no2_v : float32;              (* gas.calcVol(gas.getGM102B()) *)
  gm_eth_v : float32;              (* gas.calcVol(gas.getGM302B()) *)
  gm_voc_v : float32;              (* gas.calcVol(gas.getGM502B()) *)
  gm_co_v : float32;               (* gas.calcVol(gas.getGM702B()) *)
  analogRead_NH3 : Z               (* analogRead(NH3_PIN) *)
}.

(** [nh3_v = (analogRead(NH3_PIN) * ADC_VOLTAGE) / ADC_MAX], computed in
    [double] and stored in a [float]. *)
Definition nh3_v (r : readings) : float32 :=
  F32.of_double
    (F32.div64 (F32.mul64 (F32.of_Z64 (analogRead_NH3 r)) ADC_VOLTAGE)
               (F32.of_Z64 ADC_MAX)).

(** "Assign readings to buffer": [frame_buf[0]] to [frame_buf[8]]. *)
Definition frame_buf (r : readings) : list float32 :=
  [ bme680_temperature r;
    bme680_humidity r;
    F32.of_Z (sgp_co2 r);
    F32.of_Z (sgp_tvoc r);
    gm_voc_v r;
    gm_no2_v r;
    gm_eth_v r;
    gm_co_v r;
    nh3_v r ].

Section Buffer.

(** [WINDOW_LEN] is [EI_CLASSIFIER_RAW_SAMPLE_COUNT] of the generated
    header; the window code is read for any value of it. *)
Variable WINDOW_LEN : nat.

(** [const int final_frame_idx = (WINDOW_LEN - 1) * NUM_CHANNELS].  The
    indices are natural numbers here: for a [WINDOW_LEN] of 0 the C index
    is negative and the store below is out of the array, as it is here. *)
Definition final_frame_idx : nat := ((WINDOW_LEN - 1) * NUM_CHANNELS)%nat.

(** "Roll window" *)
Definition roll_window (input_buf : list float32) : option (list float32) :=
  for_range 0 (WINDOW_LEN - 1) (fun i buf =>
    for_range 0 NUM_CHANNELS (fun j buf =>
      v ← buf !! ((i + 1) * NUM_CHANNELS + j)%nat;
      arr_set buf (i * NUM_CHANNELS + j)%nat v) buf) input_buf.

(** "Standardize readings and put them into rolling window" *)
Definition store_standardized (frame : list float32) (input_buf : list float32)
  : option (list float32) :=
  for_range 0 NUM_CHANNELS (fun j buf =>
    x ← frame !! j;
    m ← means !! j;
    sd ← std_devs !! j;
    arr_set buf (final_frame_idx + j)%nat (F32.div (F32.sub x m) sd)) input_buf.

(** The two loops in sequence: one push of a frame into the window. *)
Definition push_frame (frame : list float32) (input_buf : list float32)
  : option (list float32) :=
  buf ← roll_window input_buf;
  store_standardized frame buf.

(** A sequence of pushes, oldest frame first. *)
Fixpoint push_all (frames : list (list float32)) (input_buf : list float32)
  : option (list float32) :=
  match frames with
  | [] => Some input_buf
  | frame :: rest =>
      match push_frame frame input_buf with
      | Some buf => push_all rest buf
      | None => None
      end
  end.

(** [static float input_buf[WINDOW_LEN * NUM_CHANNELS]]: static storage
    is zero-initialized. *)
Definition input_buf_init : list float32 :=
  replicate (WINDOW_LEN * NUM_CHANNELS) F32.zero.

End Buffer.

(** Callback: fill a section of the out_ptr buffer when requested.
    [out_ptr[i] = (input_buf + offset)[i]] for [i < length]; an element
    read outside [input_buf] is whatever lies there, [None] in the model.
    The status returned is [EIDSP_OK] on every path. *)
Definition get_signal_data (input_buf : list float32) (offset length : nat)
  : list (option float32) * Z :=
  ((fun i => input_buf !! (offset + i)%nat) <$> seq 0 length, EIDSP_OK).

(** Both status-returning sensor reads of a tick succeeded. *)
Definition sensors_ok (r : readings) : bool :=
  (bme680_read_sensor_data r =? 0) && (sgp_err r =? STATUS_OK).

(** The standardized frame, as the specification writes it:
    [out[i] = (frame[i] - mean[i]) / std_dev[i]]. *)
Definition standardize (frame : list float32) : list float32 :=
  zip_with (fun x p => F32.div (F32.sub x (fst p)) (snd p)) frame
           (zip means std_devs).

(** Loop invariants.  After the first [c] assignments of the roll loops,
    the first [c] slots hold what was one frame further on. *)
Definition rolled (c : nat) (src buf : list float32) : Prop :=
  length buf = length src /\
  forall k, buf !! k = if decide (k < c)%nat then src !! (k + NUM_CHANNELS)%nat
                       else src !! k.

(** After the first [c] assignments of the standardizing loop, the first
    [c] slots from [base] on hold the standardized channels. *)
Definition stored (base c : nat) (frame src buf : list float32) : Prop :=
  length buf = length src /\
  forall k, buf !! k = if decide (base <= k < base + c)%nat
                       then standardize frame !! (k - base)%nat
                       else src !! k.

End Window.

(** ** The interface of the Edge Impulse inferencing library

    The trained model and its DSP pipeline are a generated Arduino library
    outside the repository.  The sketches use its [run_classifier], three
    constants of its header and the types below. *)

Module EdgeImpulse.

Record signal_t : Type := mkSignal {
  total_length : nat;
  get_data : nat -> nat -> list (option float32) * Z
}.

(** [result.classification[i].value] is [classification result i]: the
    array is modelled by its index function. *)
Record ei_impulse_result_t : Type := mkResult {
  classification : nat -> float32;
  timing_dsp : Z;
  timing_classification : Z;
  timing_anomaly : Z
}.

Class library : Type := {
  EI_CLASSIFIER_RAW_SAMPLE_COUNT : nat;
  EI_CLASSIFIER_DSP_INPUT_FRAME_SIZE : nat;
  EI_CLASSIFIER_LABEL_COUNT : nat;
  (* EI_IMPULSE_ERROR run_classifier(signal_t *, ei_impulse_result_t *, bool debug) *)
  run_classifier : signal_t -> bool -> Z * ei_impulse_result_t
}.

End EdgeImpulse.

(** ** perfect-toast-machine.ino *)

Module PTM.
Import Window EdgeImpulse.

Definition CANCEL_THRESHOLD : Z := 40.

(** The static variables of the sketch and the trace of its output.
    [sample_timestamp] is a function-local static initialized with
    [millis()] when [loop] runs for the first time: [None] until then. *)
Record state : Type := mkState {
  sample_timestamp : option Z;
  input_buf : list float32;
  trace : list event
}.

(** What one call of [loop] reads: the clock at each [millis()] call, the
    toasting-sense pin and the sensors. *)
Record loop_env : Type := mkEnv {
  millis_static : Z;          (* static unsigned long sample_timestamp = millis() *)
  millis_gate : Z;            (* if ((millis() - sample_timestamp) >= SAMPLE_DELAY) *)
  millis_stamp : Z;           (* sample_timestamp = millis() *)
  digitalRead_TOASTING : Z;   (* toasting = digitalRead(TOASTING_PIN) *)
  sensors : readings
}.

Record setup_env : Type := mkSetupEnv {
  bme680_init_failures : nat;       (* failed bme680.init() calls before it succeeds *)
  sgp_probe_failures : nat;         (* failed sgp_probe() calls before it succeeds *)
  sgp_measure_signals_err : Z       (* status of the initial SGP30 read *)
}.

(** [setup] returns, or spins in [while (1);] for ever. *)
Inductive boot : Type :=
  | Booted (s : state)
  | Hung (tr : list event).

Section Sketch.
Context {ei : library}.

Definition WINDOW_LEN : nat := EI_CLASSIFIER_RAW_SAMPLE_COUNT.

(** The global [signal], as [setup] fills it in; its callback reads the
    global [input_buf]. *)
Definition signal (input_buf : list float32) : signal_t :=
  {| total_length := EI_CLASSIFIER_DSP_INPUT_FRAME_SIZE;
     get_data := get_signal_data input_buf |}.

Definition setup (e : setup_env) : boot :=
  let tr :=
    [pinMode_output CANCEL_PIN; spr_fillRect]
    ++ flat_map (fun _ => [Serial_println (Some (Lit "Trying to initialize BME680...")); delay 1000])
                (seq 0 (bme680_init_failures e))
    ++ flat_map (fun _ => [Serial_println (Some (Lit "Trying to initialize SGP30...")); delay 1000])
                (seq 0 (sgp_probe_failures e)) in
  if negb (sgp_measure_signals_err e =? STATUS_OK) then
    Hung (tr ++ [Serial_println (Some (Lit "Error: Could not read signal from SGP30"))])
  else
    Booted {| sample_timestamp := None;
              input_buf := input_buf_init WINDOW_LEN;
              trace := tr |}.

(** "Print inference/prediction results" *)
Definition print_predictions (result : ei_impulse_result_t) : list event :=
  ei_printf "Predictions:\r\n" []
  :: flat_map (fun i => [ ei_printf "  %s: " [Fmt_label i];
                          ei_printf "%.5f\r\n" [Fmt_5f (classification result i)] ])
              (seq 0 EI_CLASSIFIER_LABEL_COUNT).

(** "Cancel the toasting process if average time-to-burnt is under our
    threshold. Reminder: open-drain FET is active HIGH to push button." *)
Definition decide_cancel (time_to_burnt : float32) (toasting : Z) : list event :=
  if F32.ltb time_to_burnt (F32.of_Z CANCEL_THRESHOLD) then
    [ digitalWrite CANCEL_PIN HIGH; spr_drawString (Lit "Done!") 90 30 ]
  else
    digitalWrite CANCEL_PIN LOW
    :: (if negb (toasting =? 0) then [ spr_drawString (Lit "Toasting...") 50 30 ]
        else []).

(** [char str_buf[20]] *)
Definition STR_BUF_SIZE : nat := 20.

(** What a tick writes once the estimate is formatted in [str_buf]: serial
    report, display, actuator. *)
Definition report_events (res : Z) (result : ei_impulse_result_t)
    (str_buf : text) (toasting : Z) : list event :=
  (* Print return code and how long it took to perform inference *)
  [ ei_printf "run_classifier returned: %d\r\n" [Fmt_i res];
    ei_printf "Timing: DSP %d ms, inference %d ms, anomaly %d ms\r\n"
      [ Fmt_i (timing_dsp result);
        Fmt_i (timing_classification result);
        Fmt_i (timing_anomaly result) ] ]
  ++ print_predictions result
  ++ (* Update the LCD with our average time-to-burnt *)
     [ spr_fillRect; spr_drawString str_buf 115 100 ]
  ++ decide_cancel (classification result 0) toasting
  (* Draw sprite to LCD *)
  ++ [ spr_pushSprite ].

(** What a tick does with the outcome of the inference.  The estimate is
    formatted with [sprintf(str_buf, "%.0f", time_to_burnt)] before the
    display and the actuator are written: an estimate of twenty characters
    or more overflows [str_buf] and leaves the rest of the call undefined. *)
Definition report (res : Z) (result : ei_impulse_result_t) (toasting : Z)
  : option (list event) :=
  (* Get our time to burnt *)
  let time_to_burnt := classification result 0 in
  str_buf ← sprintf_0f STR_BUF_SIZE time_to_burnt;
  Some (report_events res result str_buf toasting).

Definition loop (e : loop_env) (s : state) : option state :=
  let stamp := default (millis_static e) (sample_timestamp s) in
  if sample_due (millis_gate e) stamp then
    let stamp := millis_stamp e in
    (* See if we're toasting *)
    let toasting := digitalRead_TOASTING e in
    (* Read BME680 environmental sensor *)
    if negb (bme680_read_sensor_data (sensors e) =? 0) then
      Some {| sample_timestamp := Some stamp;
              input_buf := input_buf s;
              trace := trace s ++
                [Serial_println (Some (Lit "Error: Could not read from BME680"))] |}
    (* Read SGP30 sensor *)
    else if negb (sgp_err (sensors e) =? STATUS_OK) then
      Some {| sample_timestamp := Some stamp;
              input_buf := input_buf s;
              trace := trace s ++
                [Serial_println (Some (Lit "Error: Could not read from SGP30"))] |}
    else
      (* Roll window, standardize readings and put them into it *)
      buf ← push_frame WINDOW_LEN (frame_buf (sensors e)) (input_buf s);
      (* Perform DSP pre-processing and inference *)
      let '(res, result) := run_classifier (signal buf) false in
      out ← report res result toasting;
      Some {| sample_timestamp := Some stamp;
              input_buf := buf;
              trace := trace s ++ run_classifier_called :: out |}
  else
    Some {| sample_timestamp := Some stamp;
            input_buf := input_buf s;
            trace := trace s |}.

(** The sketch run over a sequence of [loop] calls. *)
Fixpoint run (envs : list loop_env) (s : state) : option state :=
  match envs with
  | [] => Some s
  | e :: rest =>
      match loop e s with
      | Some s' => run rest s'
      | None => None
      end
  end.

(** *** Notions the properties of the sketch are stated with *)

(** The call is a sampling tick: the gate of [loop] is open. *)
Definition tick_due (e : loop_env) (s : state) : bool :=
  sample_due (millis_gate e) (default (millis_static e) (sample_timestamp s)).

(** The window is the array the sketch declares. *)
Definition window_ok (s : state) : Prop :=
  length (input_buf s) = (WINDOW_LEN * NUM_CHANNELS)%nat.

(** The time-to-burnt estimate the classifier gives for a window. *)
Definition time_to_burnt_of (input_buf : list float32) : float32 :=
  classification (snd (run_classifier (signal input_buf) false)) 0.

(** The "%.0f" rendering of an estimate and its NUL fit [str_buf]. *)
Definition str_buf_fits (time_to_burnt : float32) : bool :=
  (fmt_0f_length time_to_burnt + 1 <=? STR_BUF_SIZE)%nat.

(** The estimate a tick obtains for the frame it reads fits [str_buf]. *)
Definition estimate_fits (e : loop_env) (s : state) : bool :=
  match push_frame WINDOW_LEN (frame_buf (sensors e)) (input_buf s) with
  | Some buf => str_buf_fits (time_to_burnt_of buf)
  | None => false
  end.

(** Every estimate obtained along a run of [loop] calls fits [str_buf]. *)
Fixpoint estimates_fit (envs : list loop_env) (stamp : option Z)
    (input_buf : list float32) : bool :=
  match envs with
  | [] => true
  | e :: rest =>
      if sample_due (millis_gate e) (default (millis_static e) stamp) then
        if sensors_ok (sensors e) then
          match push_frame WINDOW_LEN (frame_buf (sensors e)) input_buf with
          | Some buf =>
              str_buf_fits (time_to_burnt_of buf)
              && estimates_fit rest (Some (millis_stamp e)) buf
          | None => false
          end
        else estimates_fit rest (Some (millis_stamp e)) input_buf
      else estimates_fit rest (Some (default (millis_static e) stamp)) input_buf
  end.

(** The line a tick logs when a sensor read fails. *)
Definition fault_message (r : readings) : string :=
  if negb (bme680_read_sensor_data r =? 0) then "Error: Could not read from BME680"%string
  else "Error: Could not read from SGP30"%string.

(** The status line a tick draws above the estimate. *)
Definition status_text (time_to_burnt : float32) (toasting : Z) : screen :=
  if F32.ltb time_to_burnt (F32.of_Z CANCEL_THRESHOLD) then [ (Lit "Done!", 90, 30) ]
  else if negb (toasting =? 0) then [ (Lit "Toasting...", 50, 30) ]
  else [].

(** The raw frames a run of [loop] calls pushes into the window, oldest
    first: one for each tick that is due and whose sensor reads succeed. *)
Fixpoint pushed (envs : list loop_env) (stamp : option Z) : list (list float32) :=
  match envs with
  | [] => []
  | e :: rest =>
      if sample_due (millis_gate e) (default (millis_static e) stamp) then
        (if sensors_ok (sensors e) then [frame_buf (sensors e)] else [])
        ++ pushed rest (Some (millis_stamp e))
      else pushed rest (Some (default (millis_static e) stamp))
  end.

End Sketch.

(** The two states of the decision controller, read off the actuator. *)
Inductive controller : Type := ARMED | CANCELLED.

Definition controller_state (tr : list event) : controller :=
  if pin_level CANCEL_PIN tr =? HIGH then CANCELLED else ARMED.

End PTM.

(** ** The rolling-window inference test

    The same acquisition, window and inference as the deployed firmware;
    the prediction is rounded to the nearest second and only displayed. *)

Module RollingTest.
Import Window EdgeImpulse.

Record state : Type := mkState {
  sample_timestamp : option Z;
  input_buf : list float32;
  trace : list event
}.

Record loop_env : Type := mkEnv {
  millis_static : Z;
  millis_gate : Z;
  millis_stamp : Z;
  sensors : readings
}.

Section Sketch.
Context {ei : library}.

Definition WINDOW_LEN : nat := EI_CLASSIFIER_RAW_SAMPLE_COUNT.

Definition signal (input_buf : list float32) : signal_t :=
  {| total_length := EI_CLASSIFIER_DSP_INPUT_FRAME_SIZE;
     get_data := get_signal_data input_buf |}.

Definition loop (e : loop_env) (s : state) : option state :=
  let stamp := default (millis_static e) (sample_timestamp s) in
  if sample_due (millis_gate e) stamp then
    let stamp := millis_stamp e in
    if negb (bme680_read_sensor_data (sensors e) =? 0) then
      Some {| sample_timestamp := Some stamp;
              input_buf := input_buf s;
              trace := trace s ++
                [Serial_println (Some (Lit "Error: Could not read from BME680"))] |}
    else if negb (sgp_err (sensors e) =? STATUS_OK) then
      Some {| sample_timestamp := Some stamp;
              input_buf := input_buf s;
              trace := trace s ++
                [Serial_println (Some (Lit "Error: Could not read from SGP30"))] |}
    else
      buf ← push_frame WINDOW_LEN (frame_buf (sensors e)) (input_buf s);
      let '(res, result) := run_classifier (signal buf) false in
      (* Round prediction to neared second *)
      time_to_burnt ←
        F32.to_int (F32.add64 (F32.to_double (classification result 0))
                              (F32.literal64 5 10));
      (* sprintf(str_buf, "%i", time_to_burnt) into char str_buf[20] *)
      str_buf ← sprintf_i 20 time_to_burnt;
      Some {| sample_timestamp := Some stamp;
              input_buf := buf;
              trace := trace s ++
                [ run_classifier_called;
                  ei_printf "run_classifier returned: %d\r\n" [Fmt_i res];
                  ei_printf "Timing: DSP %d ms, inference %d ms, anomaly %d ms\r\n"
                    [ Fmt_i (timing_dsp result);
                      Fmt_i (timing_classification result);
                      Fmt_i (timing_anomaly result) ];
                  ei_printf "Predictions:\r\n" [] ]
                ++ flat_map
                     (fun i => [ ei_printf "  %s: " [Fmt_label i];
                                 ei_printf "%.5f\r\n" [Fmt_5f (classification result i)] ])
                     (seq 0 EI_CLASSIFIER_LABEL_COUNT)
                (* Update the LCD *)
                ++ [ spr_fillRect;
                     spr_drawString str_buf 115 100;
                     spr_pushSprite ] |}
  else
    Some {| sample_timestamp := Some stamp;
            input_buf := input_buf s;
            trace := trace s |}.

End Sketch.

End RollingTest.

(** ** Toast odor data collection: the labelling mode and its button *)

Module DataCollection.
Import Window.

Definition NUM_MODES : Z := 4.
Definition MODE_IDLE : Z := 0.
Definition MODE_BACKGROUND : Z := 1.
Definition MODE_TOASTING : Z := 2.
Definition MODE_BURNT : Z := 3.

Definition PA_IN_KPA : F32.float64 := Eval vm_compute in F32.of_Z64 1000.

(** The static variables of [loop] and the trace of its output.  The two
    timestamps are initialized with [millis()] on the first call. *)
Record state : Type := mkState {
  mode : Z;                       (* static uint8_t mode = MODE_IDLE *)
  btn_state : Z;                  (* static uint8_t btn_state *)
  last_btn_state : Z;             (* static uint8_t last_btn_state = HIGH *)
  last_dbnc_time : Z;             (* static unsigned long last_dbnc_time = 0 *)
  sample_timestamp : option Z;
  start_timestamp : option Z;
  trace : list event
}.

(** The statics before the first call; [btn_state] has no initializer and
    static storage is zero-initialized. *)
Definition init (tr : list event) : state :=
  {| mode := MODE_IDLE;
     btn_state := 0;
     last_btn_state := HIGH;
     last_dbnc_time := 0;
     sample_timestamp := None;
     start_timestamp := None;
     trace := tr |}.

(** What one call of [loop] reads: the button, the clock at each
    [millis()] call and the sensors. *)
Record loop_env : Type := mkEnv {
  millis_static_sample : Z;   (* static unsigned long sample_timestamp = millis() *)
  millis_static_start : Z;    (* static unsigned long start_timestamp = millis() *)
  digitalRead_BTN : Z;        (* btn_reading = digitalRead(BTN_PIN) *)
  millis_dbnc : Z;            (* last_dbnc_time = millis() *)
  millis_check : Z;           (* if ((millis() - last_dbnc_time) > DEBOUNCE_DELAY) *)
  millis_start : Z;           (* start_timestamp = millis() *)
  millis_gate : Z;            (* if ((millis() - sample_timestamp) >= SAMPLE_DELAY) *)
  millis_stamp : Z;           (* sample_timestamp = millis() *)
  sensors : readings
}.

(** [mode = (mode + 1); if (mode >= NUM_MODES) mode = MODE_IDLE;] *)
Definition next_mode (mode : Z) : Z :=
  let mode := uint8 (mode + 1) in
  if NUM_MODES <=? mode then MODE_IDLE else mode.

(** "Update LCD": the [switch (mode)] after the screen is cleared. *)
Definition mode_screen (mode : Z) : list event :=
  if mode =? MODE_IDLE then
    [ tft_drawString (Lit "IDLE") 30 100; Serial_println None ]
  else if mode =? MODE_BACKGROUND then
    [ tft_drawString (Lit "BACKGROUND") 30 100;
      Serial_println (Some (Lit "timestamp,temp,humd,pres,co2,voc1,voc2,no2,eth,co,state")) ]
  else if mode =? MODE_TOASTING then
    [ tft_drawString (Lit "TOASTING") 30 100 ]
  else if mode =? MODE_BURNT then
    [ tft_drawString (Lit "BURNT") 30 100 ]
  else [].

(** "Print CSV data with timestamp" *)
Definition csv_row (sample_timestamp start_timestamp mode : Z) (r : readings)
  : list event :=
  [ Serial_print (Fmt_i (ulong_sub sample_timestamp start_timestamp));
    Serial_print (Lit ",");
    Serial_print (Fmt_float (bme680_temperature r));
    Serial_print (Lit ",");
    Serial_print (Fmt_float (bme680_humidity r));
    Serial_print (Lit ",");
    Serial_print (Fmt_double (F32.div64 (F32.to_double (bme680_pressure r)) PA_IN_KPA));
    Serial_print (Lit ",");
    Serial_print (Fmt_i (sgp_co2 r));
    Serial_print (Lit ",");
    Serial_print (Fmt_i (sgp_tvoc r));
    Serial_print (Lit ",");
    Serial_print (Fmt_float (gm_voc_v r));
    Serial_print (Lit ",");
    Serial_print (Fmt_float (gm_no2_v r));
    Serial_print (Lit ",");
    Serial_print (Fmt_float (gm_eth_v r));
    Serial_print (Lit ",");
    Serial_print (Fmt_float (gm_co_v r));
    Serial_print (Lit ",");
    Serial_print (Fmt_i mode);
    Serial_println None ].

(** The debounce part of [loop]: from the statics and the inputs to the new
    [mode], [btn_state], [last_dbnc_time], [start_timestamp] and the
    output of a mode change. *)
Definition debounce (e : loop_env) (s : state) (start : Z)
  : Z * Z * Z * Z * list event :=
  let btn_reading := digitalRead_BTN e in
  (* Debounce button - see if button state has changed *)
  let last_dbnc_time :=
    if negb (btn_reading =? last_btn_state s) then millis_dbnc e
    else last_dbnc_time s in
  (* Debounce button - wait some time before checking the button again *)
  if DEBOUNCE_DELAY <? ulong_sub (millis_check e) last_dbnc_time then
    if negb (btn_reading =? btn_state s) then
      let btn_state := uint8 btn_reading in
      (* Only transition to new mode if button is still pressed *)
      if btn_state =? LOW then
        let mode := next_mode (mode s) in
        let start := if mode =? MODE_BACKGROUND then millis_start e else start in
        (mode, btn_state, last_dbnc_time, start, tft_fillScreen :: mode_screen mode)
      else (mode s, btn_state, last_dbnc_time, start, [])
    else (mode s, btn_state s, last_dbnc_time, start, [])
  else (mode s, btn_state s, last_dbnc_time, start, []).

Definition loop (e : loop_env) (s : state) : state :=
  let sample := default (millis_static_sample e) (sample_timestamp s) in
  let start := default (millis_static_start e) (start_timestamp s) in
  let '(mode, btn_state, last_dbnc_time, start, out) := debounce e s start in
  (* Debounce button - seriously me, stop forgetting to put this in *)
  let last_btn_state := uint8 (digitalRead_BTN e) in
  (* Only collect if not in idle *)
  if (MODE_IDLE <? mode) && sample_due (millis_gate e) sample then
    let sample := millis_stamp e in
    let out :=
      if negb (bme680_read_sensor_data (sensors e) =? 0) then
        out ++ [Serial_println (Some (Lit "Error: Could not read from BME680"))]
      else if negb (sgp_err (sensors e) =? STATUS_OK) then
        out ++ [Serial_println (Some (Lit "Error: Could not read from SGP30"))]
      else
        out ++ csv_row sample start mode (sensors e) in
    {| mode := mode; btn_state := btn_state; last_btn_state := last_btn_state;
       last_dbnc_time := last_dbnc_time;
       sample_timestamp := Some sample; start_timestamp := Some start;
       trace := trace s ++ out |}
  else
    {| mode := mode; btn_state := btn_state; last_btn_state := last_btn_state;
       last_dbnc_time := last_dbnc_time;
       sample_timestamp := Some sample; start_timestamp := Some start;
       trace := trace s ++ out |}.

(** The sketch run over a sequence of [loop] calls. *)
Definition run (envs : list loop_env) (s : state) : state :=
  fold_left (fun s e => loop e s) envs s.

(** *** Notions the properties of the button are stated with *)

(** A run of consecutive [loop] calls that all read the same button
    level.  [stable_ms first e] is the time the level has been seen
    unchanged when call [e] checks it, [first] being the call that saw
    the level change. *)
Definition stable_ms (first e : loop_env) : Z :=
  ulong_sub (millis_check e) (millis_dbnc first).

Definition held (lvl : Z) (ins : list loop_env) : bool :=
  forallb (fun e => digitalRead_BTN e =? lvl) ins.

(** The level is held, and some call sees it stable for at least [d] ms. *)
Definition held_for (d lvl : Z) (ins : list loop_env) : bool :=
  match ins with
  | [] => false
  | first :: _ => held lvl ins && existsb (fun e => d <=? stable_ms first e) ins
  end.

(** Held for more than [DEBOUNCE_DELAY] ms. *)
Definition sustained (lvl : Z) (ins : list loop_env) : bool :=
  held_for (DEBOUNCE_DELAY + 1) lvl ins.

(** The level is held, and no call sees it stable for more than
    [DEBOUNCE_DELAY] ms. *)
Definition brief (lvl : Z) (ins : list loop_env) : bool :=
  match ins with
  | [] => false
  | first :: _ =>
      held lvl ins && forallb (fun e => stable_ms first e <=? DEBOUNCE_DELAY) ins
  end.

(** The button toggles faster than the debounce delay: the trace is a
    sequence of brief runs of alternating level, the first one opposite
    to the level [prev] read last. *)
Fixpoint toggling (prev : Z) (runs : list (list loop_env)) : bool :=
  match runs with
  | [] => true
  | r :: rest => brief (HIGH + LOW - prev) r && toggling (HIGH + LOW - prev) rest
  end.

(** The time of the last level change as a call sees it, whether the
    call finds the level settled relative to a time, and whether the call
    commits its reading to [btn_state]. *)
Definition edge_time (e : loop_env) (s : state) : Z :=
  if negb (digitalRead_BTN e =? last_btn_state s) then millis_dbnc e
  else last_dbnc_time s.

Definition settled (since : Z) (e : loop_env) : bool :=
  DEBOUNCE_DELAY <? ulong_sub (millis_check e) since.

Definition commits (e : loop_env) (s : state) : bool :=
  settled (edge_time e s) e && negb (digitalRead_BTN e =? btn_state s).

(** Mode changes a trace shows: each one clears the screen once. *)
Definition is_mode_change (ev : event) : bool :=
  match ev with tft_fillScreen => true | _ => false end.

Definition mode_changes (tr : list event) : nat :=
  length (List.filter is_mode_change tr).

End DataCollection.

(** ** Toaster control test

    The first sketch of ptm-toaster-control-test.ino: while the toaster is
    on, the button pushes its cancel button for one second. *)

Module ControlTest.

(** What one call of [loop] reads.  The button is read only while the
    toaster is on. *)
Record loop_env : Type := mkEnv {
  digitalRead_TOASTING : Z;   (* int toasting = digitalRead(TOASTING_PIN) *)
  digitalRead_BTN : Z         (* digitalRead(BTN_PIN) *)
}.

(** The output of [setup]. *)
Definition setup : list event := [pinMode_output CANCEL_PIN; spr_fillRect].

(** "Cancel if button is pressed" *)
Definition cancel_pulse : list event :=
  [ digitalWrite CANCEL_PIN HIGH; delay 1000; digitalWrite CANCEL_PIN LOW ].

(** One call of [loop], from the trace so far to the trace after it. *)
Definition loop (e : loop_env) (tr : list event) : list event :=
  tr
  ++ (if negb (digitalRead_TOASTING e =? 0) then
        (* Print to LCD *)
        [ spr_fillRect; spr_drawString (Lit "Toasting") 50 100; spr_pushSprite ]
        ++ (if digitalRead_BTN e =? 0 then cancel_pulse else [])
      else
        (* If not toasting, clear LCD *)
        [ spr_fillRect; spr_pushSprite ])
  ++ [ delay 10 ].

Definition run (envs : list loop_env) (tr : list event) : list event :=
  fold_left (fun tr e => loop e tr) envs tr.

End ControlTest.

(** ** Static inference test

    The sketch runs the classifier on a test sample copied from Edge
    Impulse instead of sensor readings; its callback is the one of the
    firmware, over this array. *)

Module StaticTest.

(** "Raw features copied from test sample": [static float input_buf[]],
    in the order of the source. *)
Definition input_buf : list float32 :=
  Eval vm_compute in
    [ F32.literal 14038 10000; F32.literal (-8046) 10000; F32.literal 786 10000;
      F32.literal 11126 10000; F32.literal 8823 10000; F32.literal 9417 10000;
      F32.literal 8742 10000; F32.literal (-2865) 10000; F32.literal 3510 10000;
      F32.literal 14038 10000; F32.literal (-8046) 10000; F32.literal 786 10000;
      F32.literal 11126 10000; F32.literal 8823 10000; F32.literal 9417 10000;
      F32.literal 8742 10000; F32.literal (-2865) 10000; F32.literal 3510 10000;
      F32.literal 14038 10000; F32.literal (-8046) 10000; F32.literal 786 10000;
      F32.literal 11126 10000; F32.literal 8823 10000; F32.literal 9417 10000;
      F32.literal 8742 10000; F32.literal (-2865) 10000; F32.literal 3510 10000;
      F32.literal 14038 10000; F32.literal (-8046) 10000; F32.literal 786 10000;
      F32.literal 11126 10000; F32.literal 8823 10000; F32.literal 9417 10000;
      F32.literal 8742 10000; F32.literal (-2865) 10000; F32.literal 3510 10000;
      F32.literal 14038 10000; F32.literal (-8046) 10000; F32.literal 786 10000;
      F32.literal 11126 10000; F32.literal 8823 10000; F32.literal 9417 10000;
      F32.literal 8742 10000; F32.literal (-2865) 10000; F32.literal 3510 10000;
      F32.literal 14038 10000; F32.literal (-8046) 10000; F32.literal 786 10000;
      F32.literal 11126 10000; F32.literal 8823 10000; F32.literal 9417 10000;
      F32.literal 8742 10000; F32.literal (-2865) 10000; F32.literal 3510 10000;
      F32.literal 14038 10000; F32.literal (-8046) 10000; F32.literal 786 10000;
      F32.literal 11126 10000; F32.literal 8823 10000; F32.literal 9417 10000;
      F32.literal 8742 10000; F32.literal (-2865) 10000; F32.literal 3510 10000;
      F32.literal 14038 10000; F32.literal (-8046) 10000; F32.literal 786 10000;
      F32.literal 11126 10000; F32.literal 8823 10000; F32.literal 9417 10000;
      F32.literal 8742 10000; F32.literal (-2865) 10000; F32.literal 3510 10000;
      F32.literal 14038 10000; F32.literal (-8046) 10000; F32.literal 786 10000;
      F32.literal 11126 10000; F32.literal 8823 10000; F32.literal 9417 10000;
      F32.literal 8742 10000; F32.literal (-2865) 10000; F32.literal 3510 10000;
      F32.literal 14038 10000; F32.literal (-8046) 10000; F32.literal 786 10000;
      F32.literal 11126 10000; F32.literal 8823 10000; F32.literal 9417 10000;
      F32.literal 8742 10000; F32.literal (-2865) 10000; F32.literal 3510 10000;
      F32.literal 14038 10000; F32.literal (-8046) 10000; F32.literal 786 10000;
      F32.literal 11126 10000; F32.literal 8823 10000; F32.literal 9417 10000;
      F32.literal 8742 10000; F32.literal (-2865) 10000; F32.literal 3510 10000;
      F32.literal 14038 10000; F32.literal (-8046) 10000; F32.literal 786 10000;
      F32.literal 11126 10000; F32.literal 8823 10000; F32.literal 9417 10000;
      F32.literal 8742 10000; F32.literal (-2865) 10000; F32.literal 3510 10000;
      F32.literal 14038 10000; F32.literal (-8046) 10000; F32.literal 786 10000;
      F32.literal 11126 10000; F32.literal 8823 10000; F32.literal 9417 10000;
      F32.literal 8742 10000; F32.literal (-2865) 10000; F32.literal 3510 10000;
      F32.literal 14038 10000; F32.literal (-8046) 10000; F32.literal 786 10000;
      F32.literal 11126 10000; F32.literal 8823 10000; F32.literal 9417 10000;
      F32.literal 8742 10000; F32.literal (-2865) 10000; F32.literal 3510 10000;
      F32.literal 14038 10000; F32.literal (-8046) 10000; F32.literal 786 10000;
      F32.literal 11126 10000; F32.literal 8823 10000; F32.literal 9417 10000;
      F32.literal 8742 10000; F32.literal (-2865) 10000; F32.literal 3510 10000;
      F32.literal 14038 10000; F32.literal (-8046) 10000; F32.literal 786 10000;
      F32.literal 11126 10000; F32.literal 8823 10000; F32.literal 9417 10000;
      F32.literal 8742 10000; F32.literal (-2865) 10000; F32.literal 3510 10000;
      F32.literal 14038 10000; F32.literal (-8046) 10000; F32.literal 786 10000;
      F32.literal 11126 10000; F32.literal 8823 10000; F32.literal 9417 10000;
      F32.literal 8742 10000; F32.literal (-2865) 10000; F32.literal 3510 10000;
      F32.literal 14038 10000; F32.literal (-8046) 10000; F32.literal 786 10000;
      F32.literal 11126 10000; F32.literal 8823 10000; F32.literal 9417 10000;
      F32.literal 8742 10000; F32.literal (-2865) 10000; F32.literal 3510 10000;
      F32.literal 14038 10000; F32.literal (-8046) 10000; F32.literal 786 10000;
      F32.literal 11126 10000; F32.literal 8823 10000; F32.literal 9417 10000;
      F32.literal 8742 10000; F32.literal (-2865) 10000; F32.literal 3510 10000;
      F32.literal 14038 10000; F32.literal (-8046) 10000; F32.literal 786 10000;
      F32.literal 11126 10000; F32.literal 8823 10000; F32.literal 9417 10000;
      F32.literal 8742 10000; F32.literal (-2865) 10000; F32.literal 3510 10000 ].

Section Sketch.
Context {ei : EdgeImpulse.library}.

(** The global [signal], as [setup] fills it in. *)
Definition signal : EdgeImpulse.signal_t :=
  {| EdgeImpulse.total_length := EdgeImpulse.EI_CLASSIFIER_DSP_INPUT_FRAME_SIZE;
     EdgeImpulse.get_data := Window.get_signal_data input_buf |}.

(** One call of [loop], from the trace so far to the trace after it; the
    report is the one of the firmware, text for text, and [ei_sleep(100)]
    is recorded as a delay. *)
Definition loop (tr : list event) : list event :=
  (* Perform DSP pre-processing and inference *)
  let '(res, result) := EdgeImpulse.run_classifier signal false in
  tr
  ++ run_classifier_called
     :: [ ei_printf "run_classifier returned: %d\r\n" [Fmt_i res];
          ei_printf "Timing: DSP %d ms, inference %d ms, anomaly %d ms\r\n"
            [ Fmt_i (EdgeImpulse.timing_dsp result);
              Fmt_i (EdgeImpulse.timing_classification result);
              Fmt_i (EdgeImpulse.timing_anomaly result) ] ]
  ++ PTM.print_predictions result
  (* Wait 100 ms before running inference again *)
  ++ [ delay 100 ].

End Sketch.

End StaticTest.

(** ** Concrete inputs

    A stand-in for the generated library, and calls of [loop] with chosen
    inputs, on which the statements below are exercised. *)

Module Examples.
Import Window EdgeImpulse.

(** A classifier over windows of twenty frames with one label: it pulls
    the whole window through the callback, returns the callback's status
    and always estimates [v]. *)
Definition stub (v : float32) : library :=
  {| EI_CLASSIFIER_RAW_SAMPLE_COUNT := 20;
     EI_CLASSIFIER_DSP_INPUT_FRAME_SIZE := 180;
     EI_CLASSIFIER_LABEL_COUNT := 1;
     run_classifier := fun sig _ =>
       (snd (get_data sig 0 (total_length sig)),
        {| classification := fun _ => v;
           timing_dsp := 1; timing_classification := 2; timing_anomaly := 0 |}) |}.

Definition f39 : float32 := Eval vm_compute in F32.of_Z 39.
Definition f39_9 : float32 := Eval vm_compute in F32.literal 399 10.
Definition f40 : float32 := Eval vm_compute in F32.of_Z 40.

(** Estimates whose "%.0f" rendering has twenty characters:
    18446744073709551616 and -1152921504606846976. *)
Definition f_2_64 : float32 := Eval vm_compute in F32.of_Z (2 ^ 64).
Definition f_minus_2_60 : float32 := Eval vm_compute in F32.of_Z (- 2 ^ 60).

Definition readings_ok : readings :=
  {| bme680_read_sensor_data := 0;
     bme680_temperature := F32.of_Z 25;
     bme680_humidity := F32.of_Z 40;
     bme680_pressure := F32.of_Z 101325;
     sgp_err := 0;
     sgp_tvoc := 12;
     sgp_co2 := 400;
     gm_no2_v := F32.literal 22 10;
     gm_eth_v := F32.literal 26 10;
     gm_voc_v := F32.literal 25 10;
     gm_co_v := F32.literal 21 10;
     analogRead_NH3 := 700 |}.

Definition readings_bme_fault : readings :=
  {| bme680_read_sensor_data := -1;
     bme680_temperature := F32.zero;
     bme680_humidity := F32.zero;
     bme680_pressure := F32.zero;
     sgp_err := 0;
     sgp_tvoc := 12;
     sgp_co2 := 400;
     gm_no2_v := F32.literal 22 10;
     gm_eth_v := F32.literal 26 10;
     gm_voc_v := F32.literal 25 10;
     gm_co_v := F32.literal 21 10;
     analogRead_NH3 := 700 |}.

Definition readings_sgp_fault : readings :=
  {| bme680_read_sensor_data := 0;
     bme680_temperature := F32.of_Z 25;
     bme680_humidity := F32.of_Z 40;
     bme680_pressure := F32.of_Z 101325;
     sgp_err := -1;
     sgp_tvoc := 0;
     sgp_co2 := 0;
     gm_no2_v := F32.literal 22 10;
     gm_eth_v := F32.literal 26 10;
     gm_voc_v := F32.literal 25 10;
     gm_co_v := F32.literal 21 10;
     analogRead_NH3 := 700 |}.

(** Readings that get warmer from tick to tick. *)
Definition readings_at (k : nat) : readings :=
  {| bme680_read_sensor_data := 0;
     bme680_temperature := F32.of_Z (25 + Z.of_nat k);
     bme680_humidity := F32.of_Z 40;
     bme680_pressure := F32.of_Z 101325;
     sgp_err := 0;
     sgp_tvoc := 12 + Z.of_nat k;
     sgp_co2 := 400;
     gm_no2_v := F32.literal 22 10;
     gm_eth_v := F32.literal 26 10;
     gm_voc_v := F32.literal 25 10;
     gm_co_v := F32.literal 21 10;
     analogRead_NH3 := 700 |}.

(** The deployed firmware: a state some time after boot, and calls of
    [loop] half a second and more after the last tick. *)
Definition ptm_state (tr : list event) : PTM.state :=
  {| PTM.sample_timestamp := Some 1000;
     PTM.input_buf := input_buf_init 20;
     PTM.trace := tr |}.

Definition ptm_call (now toasting : Z) (r : readings) : PTM.loop_env :=
  {| PTM.millis_static := now;
     PTM.millis_gate := now;
     PTM.millis_stamp := now;
     PTM.digitalRead_TOASTING := toasting;
     PTM.sensors := r |}.

(** Twenty-three calls, one every 500 ms: the fifth finds the BME680
    failing, the others complete. *)
Definition ptm_session : list PTM.loop_env :=
  map (fun k => ptm_call (1000 + 500 * Z.of_nat k) 1
                 (if (k =? 5)%nat then readings_bme_fault else readings_at k))
      (seq 1 23).



(** The data collection sketch: a call of [loop] at time [now] that reads
    [btn] from the button. *)
Definition dc_call (now btn : Z) : DataCollection.loop_env :=
  {| DataCollection.millis_static_sample := now;
     DataCollection.millis_static_start := now;
     DataCollection.digitalRead_BTN := btn;
     DataCollection.millis_dbnc := now;
     DataCollection.millis_check := now;
     DataCollection.millis_start := now;
     DataCollection.millis_gate := now;
     DataCollection.millis_stamp := now;
     DataCollection.sensors := readings_ok |}.

(** The button at rest, released, in mode [m]. *)
Definition dc_rest (m : Z) : DataCollection.state :=
  {| DataCollection.mode := m;
     DataCollection.btn_state := HIGH;
     DataCollection.last_btn_state := HIGH;
     DataCollection.last_dbnc_time := 0;
     DataCollection.sample_timestamp := Some 900;
     DataCollection.start_timestamp := Some 900;
     DataCollection.trace := [] |}.

(** The button read at level [btn] every 10 ms from [t0] to [t0 + 10 n]. *)
Definition dc_hold (btn t0 : Z) (n : nat) : list DataCollection.loop_env :=
  map (fun k => dc_call (t0 + 10 * Z.of_nat k) btn) (seq 0 (S n)).

End Examples.

(** * Proofs *)

(** ** Loops and arrays *)

Lemma for_range_inv {St} (Inv : nat -> St -> Prop) (body : nat -> St -> option St)
    (n lo : nat) (s : St) :
  Inv lo s ->
  (forall i t, (lo <= i < lo + n)%nat -> Inv i t ->
     exists t', body i t = Some t' /\ Inv (S i) t') ->
  exists s', for_range lo n body s = Some s' /\ Inv (lo + n)%nat s'.
Proof.
  unfold for_range. revert lo s.
  induction n as [|n IH]; intros lo s H0 Hstep; simpl.
  - exists s. rewrite Nat.add_0_r. auto.
  - destruct (Hstep lo s ltac:(lia) H0) as (t & -> & Ht).
    destruct (IH (S lo) t Ht) as (s' & Hs' & Hinv).
    + intros i u Hi Hu. apply Hstep; [lia|assumption].
    + exists s'. split; [assumption|].
      replace (lo + S n)%nat with (S lo + n)%nat by lia.
      assumption.
Qed.

Lemma arr_set_Some {A} (a : list A) (i : nat) (v : A) :
  (i < length a)%nat -> arr_set a i v = Some (<[i:=v]> a).
Proof. intros H. unfold arr_set. destruct (decide _); [reflexivity|lia]. Qed.

Module WindowFacts.
Import Window.

Section Roll.
Variable W : nat.

Lemma roll_step (src buf : list float32) (i j : nat) :
  length src = (W * NUM_CHANNELS)%nat ->
  (i < W - 1)%nat -> (j < NUM_CHANNELS)%nat ->
  rolled (i * NUM_CHANNELS + j) src buf ->
  exists buf',
    (v ← buf !! ((i + 1) * NUM_CHANNELS + j)%nat;
     arr_set buf (i * NUM_CHANNELS + j)%nat v) = Some buf'
    /\ rolled (i * NUM_CHANNELS + S j) src buf'.
Proof.
  intros Hlen Hi Hj [Hl Hk].
  assert (Hin : ((i + 1) * NUM_CHANNELS + j < length src)%nat) by nia.
  destruct (lookup_lt_is_Some_2 src _ Hin) as [v Hv].
  assert (Hrd : buf !! ((i + 1) * NUM_CHANNELS + j)%nat = Some v).
  { rewrite Hk. destruct (decide _); [nia|assumption]. }
  rewrite Hrd. simpl.
  rewrite arr_set_Some by nia.
  eexists; split; [reflexivity|].
  split; [rewrite length_insert; assumption|].
  intros k.
  destruct (decide (k = i * NUM_CHANNELS + j)%nat) as [->|Hne].
  - rewrite list_lookup_insert_eq by nia.
    destruct (decide _); [|lia].
    rewrite <- Hv. f_equal. lia.
  - rewrite list_lookup_insert_ne by lia.
    rewrite Hk. repeat destruct (decide _); try lia; reflexivity.
Qed.

Lemma roll_window_rolled (src : list float32) :
  length src = (W * NUM_CHANNELS)%nat ->
  exists buf, roll_window W src = Some buf
              /\ rolled ((W - 1) * NUM_CHANNELS) src buf.
Proof.
  intros Hlen. unfold roll_window.
  destruct (for_range_inv (fun i buf => rolled (i * NUM_CHANNELS) src buf)
              (fun i buf =>
                 for_range 0 NUM_CHANNELS (fun j buf =>
                   v ← buf !! ((i + 1) * NUM_CHANNELS + j)%nat;
                   arr_set buf (i * NUM_CHANNELS + j)%nat v) buf)
              (W - 1) 0 src) as (buf & Hb & Hinv).
  - split; [reflexivity|]. intros k. destruct (decide _); [lia|reflexivity].
  - intros i buf Hi Hr.
    destruct (for_range_inv (fun j b => rolled (i * NUM_CHANNELS + j) src b)
                (fun j buf =>
                   v ← buf !! ((i + 1) * NUM_CHANNELS + j)%nat;
                   arr_set buf (i * NUM_CHANNELS + j)%nat v)
                NUM_CHANNELS 0 buf) as (b & Hb & Hinv).
    + rewrite Nat.add_0_r. assumption.
    + intros j b Hj Hrb. apply roll_step; [assumption|lia|lia|assumption].
    + exists b. split; [assumption|].
      replace (S i * NUM_CHANNELS)%nat
        with (i * NUM_CHANNELS + (0 + NUM_CHANNELS))%nat by lia.
      assumption.
  - exists buf. split; [assumption|]. simpl in Hinv. assumption.
Qed.

End Roll.
End WindowFacts.

Module WindowPush.
Import Window WindowFacts.

Lemma means_length : length means = NUM_CHANNELS.
Proof. reflexivity. Qed.

Lemma std_devs_length : length std_devs = NUM_CHANNELS.
Proof. reflexivity. Qed.

Lemma standardize_length (frame : list float32) :
  length frame = NUM_CHANNELS -> length (standardize frame) = NUM_CHANNELS.
Proof.
  intros H. unfold standardize.
  rewrite length_zip_with, length_zip, H, means_length, std_devs_length. lia.
Qed.

Lemma standardize_lookup (frame : list float32) (j : nat) (x m sd : float32) :
  frame !! j = Some x -> means !! j = Some m -> std_devs !! j = Some sd ->
  standardize frame !! j = Some (F32.div (F32.sub x m) sd).
Proof.
  intros Hx Hm Hsd. unfold standardize.
  apply lookup_zip_with_Some. exists x, (m, sd).
  split; [reflexivity|]. split; [assumption|].
  apply lookup_zip_with_Some. exists m, sd. auto.
Qed.

Section Push.
Variable W : nat.
Hypothesis W_pos : (1 <= W)%nat.

Lemma store_step (frame src buf : list float32) (j : nat) :
  length src = (W * NUM_CHANNELS)%nat ->
  length frame = NUM_CHANNELS ->
  (j < NUM_CHANNELS)%nat ->
  stored (final_frame_idx W) j frame src buf ->
  exists buf',
    (x ← frame !! j; m ← means !! j; sd ← std_devs !! j;
     arr_set buf (final_frame_idx W + j)%nat (F32.div (F32.sub x m) sd))
    = Some buf'
    /\ stored (final_frame_idx W) (S j) frame src buf'.
Proof.
  intros Hlen Hf Hj [Hl Hk].
  destruct (lookup_lt_is_Some_2 frame j ltac:(lia)) as [x Hx].
  destruct (lookup_lt_is_Some_2 means j ltac:(rewrite means_length; lia)) as [m Hm].
  destruct (lookup_lt_is_Some_2 std_devs j ltac:(rewrite std_devs_length; lia))
    as [sd Hsd].
  rewrite Hx, Hm, Hsd. simpl.
  assert (Hidx : (final_frame_idx W + j < length buf)%nat).
  { rewrite Hl, Hlen. unfold final_frame_idx. nia. }
  rewrite arr_set_Some by assumption.
  eexists; split; [reflexivity|].
  split; [rewrite length_insert; assumption|].
  intros k.
  destruct (decide (k = final_frame_idx W + j)%nat) as [->|Hne].
  - rewrite list_lookup_insert_eq by assumption.
    destruct (decide _); [|lia].
    replace (final_frame_idx W + j - final_frame_idx W)%nat with j by lia.
    symmetry. apply standardize_lookup; assumption.
  - rewrite list_lookup_insert_ne by lia.
    rewrite Hk. repeat destruct (decide _); try lia; reflexivity.
Qed.

Lemma store_standardized_stored (frame src : list float32) :
  length src = (W * NUM_CHANNELS)%nat ->
  length frame = NUM_CHANNELS ->
  exists buf, store_standardized W frame src = Some buf
              /\ stored (final_frame_idx W) NUM_CHANNELS frame src buf.
Proof.
  intros Hlen Hf. unfold store_standardized.
  apply (for_range_inv (fun j b => stored (final_frame_idx W) j frame src b)
           _ NUM_CHANNELS 0 src).
  - split; [reflexivity|]. intros k. destruct (decide _); [lia|reflexivity].
  - intros j b Hj Hb. apply store_step; [assumption|assumption|lia|assumption].
Qed.

(** One push drops the oldest frame and appends the standardized one. *)
Lemma push_frame_spec (frame buf : list float32) :
  length buf = (W * NUM_CHANNELS)%nat ->
  length frame = NUM_CHANNELS ->
  push_frame W frame buf = Some (drop NUM_CHANNELS buf ++ standardize frame).
Proof.
  intros Hlen Hf. unfold push_frame.
  destruct (roll_window_rolled W buf Hlen) as (b1 & -> & [Hl1 Hk1]). simpl.
  destruct (store_standardized_stored frame b1 ltac:(lia) Hf)
    as (b2 & -> & [Hl2 Hk2]).
  f_equal. apply list_eq. intros k.
  rewrite Hk2, Hk1.
  assert (Hd : length (drop NUM_CHANNELS buf) = final_frame_idx W).
  { rewrite length_drop, Hlen. unfold final_frame_idx. nia. }
  pose proof (standardize_length frame Hf) as Hs.
  destruct (decide (final_frame_idx W <= k < final_frame_idx W + NUM_CHANNELS)%nat)
    as [Hin|Hout].
  - rewrite lookup_app_r by lia. rewrite Hd. reflexivity.
  - destruct (decide (k < (W - 1) * NUM_CHANNELS)%nat) as [Hlt|Hge].
    + rewrite lookup_app_l by (rewrite Hd; exact Hlt).
      rewrite lookup_drop. f_equal. lia.
    + unfold final_frame_idx in *.
      rewrite lookup_app_r by lia.
      rewrite (lookup_ge_None_2 buf) by nia.
      symmetry. apply lookup_ge_None_2. lia.
Qed.

Lemma push_frame_length (frame buf buf' : list float32) :
  length buf = (W * NUM_CHANNELS)%nat ->
  length frame = NUM_CHANNELS ->
  push_frame W frame buf = Some buf' ->
  length buf' = (W * NUM_CHANNELS)%nat.
Proof.
  intros Hlen Hf. rewrite push_frame_spec by assumption.
  intros [= <-]. rewrite length_app, length_drop, standardize_length by assumption.
  nia.
Qed.

End Push.
End WindowPush.

Module WindowFifo.
Import Window WindowPush.

Lemma drop_concat_frames (n : nat) (k : nat) (fs : list (list float32)) :
  Forall (fun f => length f = n) fs ->
  drop (k * n) (concat fs) = concat (drop k fs).
Proof.
  revert fs. induction k as [|k IH]; intros fs Hfs.
  - reflexivity.
  - destruct fs as [|f fs]; [simpl concat; rewrite !drop_nil; reflexivity|].
    inversion Hfs as [|? ? Hf Hrest]; subst.
    simpl concat. cbn [drop].
    replace (S k * length f)%nat with (length f + k * length f)%nat by lia.
    rewrite <- drop_drop, drop_app_length. apply IH. assumption.
Qed.

Lemma concat_frames_length (n : nat) (fs : list (list float32)) :
  Forall (fun f => length f = n) fs ->
  length (concat fs) = (length fs * n)%nat.
Proof.
  induction 1 as [|f fs Hf _ IH]; [reflexivity|].
  simpl. rewrite length_app, IH, Hf. reflexivity.
Qed.

Lemma standardize_frames (frames : list (list float32)) :
  Forall (fun f => length f = NUM_CHANNELS) frames ->
  Forall (fun f => length f = NUM_CHANNELS) (map standardize frames).
Proof.
  intros H. apply Forall_map. eapply Forall_impl; [exact H|].
  intros f Hf. simpl. apply standardize_length. assumption.
Qed.

Section Fifo.
Variable W : nat.
Hypothesis W_pos : (1 <= W)%nat.

(** After any number of pushes the window is the tail of everything that
    was ever in it, cut at a frame boundary. *)
Lemma push_all_spec (frames : list (list float32)) (buf : list float32) :
  length buf = (W * NUM_CHANNELS)%nat ->
  Forall (fun f => length f = NUM_CHANNELS) frames ->
  push_all W frames buf
  = Some (drop (length frames * NUM_CHANNELS)
               (buf ++ concat (map standardize frames))).
Proof.
  intros Hlen Hfs. revert buf Hlen.
  induction Hfs as [|f fs Hf Hfs IH]; intros buf Hlen.
  - simpl. rewrite app_nil_r. reflexivity.
  - cbn [push_all]. rewrite (push_frame_spec W W_pos) by assumption.
    rewrite IH.
    + f_equal. cbn [map concat length].
      replace (S (length fs) * NUM_CHANNELS)%nat
        with (NUM_CHANNELS + length fs * NUM_CHANNELS)%nat by lia.
      rewrite <- drop_drop. f_equal.
      rewrite <- app_assoc. symmetry. apply drop_app_le. nia.
    + rewrite length_app, length_drop, standardize_length by assumption. nia.
Qed.

(** Once a full window of frames has been pushed, nothing of the older
    contents is left. *)
Lemma push_all_full (frames : list (list float32)) (buf : list float32) :
  length buf = (W * NUM_CHANNELS)%nat ->
  Forall (fun f => length f = NUM_CHANNELS) frames ->
  (W <= length frames)%nat ->
  push_all W frames buf
  = Some (concat (drop (length frames - W) (map standardize frames))).
Proof.
  intros Hlen Hfs HN. rewrite push_all_spec by assumption. f_equal.
  rewrite drop_app_ge by nia. rewrite Hlen.
  replace (length frames * NUM_CHANNELS - W * NUM_CHANNELS)%nat
    with ((length frames - W) * NUM_CHANNELS)%nat by nia.
  apply drop_concat_frames, standardize_frames. assumption.
Qed.

End Fifo.
End WindowFifo.

(** ** Traces *)

Lemma fold_left_neutral {A B} (f : A -> B -> A) (l : list B) (a : A) :
  Forall (fun x => forall a, f a x = a) l -> fold_left f l a = a.
Proof.
  intros H. revert a. induction H as [|x l Hx _ IH]; intros a; simpl.
  - reflexivity.
  - rewrite Hx. apply IH.
Qed.

Lemma filter_none {A} (f : A -> bool) (l : list A) :
  Forall (fun x => f x = false) l -> List.filter f l = [].
Proof.
  induction 1 as [|x l Hx _ IH]; simpl; [reflexivity|].
  rewrite Hx. assumption.
Qed.

Lemma pin_level_app (p : pin) (tr out : list event) :
  pin_level p (tr ++ out) = fold_left (pin_step p) out (pin_level p tr).
Proof. unfold pin_level. apply fold_left_app. Qed.

Lemma writes_app (p : pin) (tr out : list event) :
  writes p (tr ++ out) = (writes p tr + writes p out)%nat.
Proof. unfold writes. rewrite List.filter_app, length_app. reflexivity. Qed.

Lemma inferences_app (tr out : list event) :
  inferences (tr ++ out) = (inferences tr + inferences out)%nat.
Proof. unfold inferences. rewrite List.filter_app, length_app. reflexivity. Qed.

Lemma display_app (tr out : list event) :
  display (tr ++ out) = fold_left display_step out (display tr).
Proof. unfold display. apply fold_left_app. Qed.

(** ** The deployed firmware, one call of [loop] at a time *)

Module PTMFacts.
Import Window EdgeImpulse PTM WindowPush WindowFifo.

Lemma frame_buf_length (r : readings) : length (frame_buf r) = NUM_CHANNELS.
Proof. reflexivity. Qed.

Section Facts.
Context {ei : library}.

Lemma print_predictions_printf (result : ei_impulse_result_t) :
  Forall (fun ev => exists fmt args, ev = ei_printf fmt args)
         (print_predictions result).
Proof.
  unfold print_predictions. constructor; [eauto|].
  induction (seq 0 EI_CLASSIFIER_LABEL_COUNT) as [|i l IH]; simpl.
  - constructor.
  - constructor; [eauto|]. constructor; [eauto|]. exact IH.
Qed.

Lemma print_predictions_pin (p : pin) (result : ei_impulse_result_t) (lvl : Z) :
  fold_left (pin_step p) (print_predictions result) lvl = lvl.
Proof.
  apply fold_left_neutral.
  eapply Forall_impl; [apply print_predictions_printf|].
  intros ev (fmt & args & ->) a. reflexivity.
Qed.

Lemma print_predictions_display (result : ei_impulse_result_t) (d : screen * screen) :
  fold_left display_step (print_predictions result) d = d.
Proof.
  apply fold_left_neutral.
  eapply Forall_impl; [apply print_predictions_printf|].
  intros ev (fmt & args & ->) [sprite l]. reflexivity.
Qed.

Lemma print_predictions_writes (p : pin) (result : ei_impulse_result_t) :
  writes p (print_predictions result) = 0%nat.
Proof.
  unfold writes. rewrite filter_none; [reflexivity|].
  eapply Forall_impl; [apply print_predictions_printf|].
  intros ev (fmt & args & ->). reflexivity.
Qed.

Lemma print_predictions_inferences (result : ei_impulse_result_t) :
  inferences (print_predictions result) = 0%nat.
Proof.
  unfold inferences. rewrite filter_none; [reflexivity|].
  eapply Forall_impl; [apply print_predictions_printf|].
  intros ev (fmt & args & ->). reflexivity.
Qed.

(** The actuator after the report of a tick: the comparison alone
    decides, whatever the pin drove before. *)
Lemma report_pin (res : Z) (result : ei_impulse_result_t) (str_buf : text)
    (toasting lvl : Z) :
  fold_left (pin_step CANCEL_PIN) (report_events res result str_buf toasting) lvl
  = if F32.ltb (classification result 0) (F32.of_Z CANCEL_THRESHOLD)
    then HIGH else LOW.
Proof.
  unfold report_events. rewrite !fold_left_app. cbn [fold_left pin_step].
  rewrite print_predictions_pin. unfold decide_cancel.
  destruct (F32.ltb _ _); [reflexivity|].
  destruct (negb _); reflexivity.
Qed.

Lemma report_writes (res : Z) (result : ei_impulse_result_t) (str_buf : text)
    (toasting : Z) :
  writes CANCEL_PIN (report_events res result str_buf toasting) = 1%nat.
Proof.
  unfold report_events. rewrite !writes_app, print_predictions_writes.
  unfold decide_cancel.
  destruct (F32.ltb _ _); [reflexivity|].
  destruct (negb _); reflexivity.
Qed.

Lemma report_inferences (res : Z) (result : ei_impulse_result_t) (str_buf : text)
    (toasting : Z) :
  inferences (report_events res result str_buf toasting) = 0%nat.
Proof.
  unfold report_events. rewrite !inferences_app, print_predictions_inferences.
  unfold decide_cancel.
  destruct (F32.ltb _ _); [reflexivity|].
  destruct (negb _); reflexivity.
Qed.

(** The display after the report of a tick: the estimate, then the
    status line. *)
Lemma report_display (res : Z) (result : ei_impulse_result_t) (str_buf : text)
    (toasting : Z) (d : screen * screen) :
  snd (fold_left display_step (report_events res result str_buf toasting) d)
  = (str_buf, 115, 100) :: status_text (classification result 0) toasting.
Proof.
  unfold report_events. rewrite !fold_left_app. cbn [fold_left].
  rewrite print_predictions_display. destruct d as [sprite l].
  unfold decide_cancel, status_text.
  destruct (F32.ltb _ _); [reflexivity|].
  destruct (negb _); reflexivity.
Qed.

(** The report is written when the formatted estimate fits [str_buf], and
    only then. *)
Lemma report_fits (res : Z) (result : ei_impulse_result_t) (toasting : Z) :
  str_buf_fits (classification result 0) = true ->
  report res result toasting
  = Some (report_events res result (Fmt_0f (classification result 0)) toasting).
Proof.
  unfold report, sprintf_0f, str_buf_fits. intros ->. reflexivity.
Qed.

Lemma report_overflow (res : Z) (result : ei_impulse_result_t) (toasting : Z) :
  str_buf_fits (classification result 0) = false ->
  report res result toasting = None.
Proof.
  unfold report, sprintf_0f, str_buf_fits. intros ->. reflexivity.
Qed.

(** The ways through [loop]. *)
Lemma loop_not_due (e : loop_env) (s : state) :
  tick_due e s = false ->
  loop e s = Some {| sample_timestamp :=
                       Some (default (millis_static e) (sample_timestamp s));
                     input_buf := input_buf s;
                     trace := trace s |}.
Proof. unfold tick_due, loop. intros ->. reflexivity. Qed.

Lemma loop_fault (e : loop_env) (s : state) :
  tick_due e s = true ->
  sensors_ok (sensors e) = false ->
  loop e s = Some {| sample_timestamp := Some (millis_stamp e);
                     input_buf := input_buf s;
                     trace := trace s ++
                       [Serial_println (Some (Lit (fault_message (sensors e))))] |}.
Proof.
  unfold tick_due, loop, sensors_ok, fault_message. intros -> Hs.
  destruct (bme680_read_sensor_data (sensors e) =? 0); simpl in *.
  - rewrite Hs. reflexivity.
  - reflexivity.
Qed.

Lemma estimate_fits_spec (e : loop_env) (s : state) :
  (1 <= WINDOW_LEN)%nat ->
  window_ok s ->
  estimate_fits e s
  = str_buf_fits (time_to_burnt_of
      (drop NUM_CHANNELS (input_buf s) ++ standardize (frame_buf (sensors e)))).
Proof.
  intros HW Hwin. unfold estimate_fits.
  rewrite (push_frame_spec WINDOW_LEN HW) by (assumption || apply frame_buf_length).
  reflexivity.
Qed.

Lemma loop_completed (e : loop_env) (s : state) :
  (1 <= WINDOW_LEN)%nat ->
  window_ok s ->
  tick_due e s = true ->
  sensors_ok (sensors e) = true ->
  estimate_fits e s = true ->
  let buf := drop NUM_CHANNELS (input_buf s) ++ standardize (frame_buf (sensors e)) in
  let rc := run_classifier (signal buf) false in
  loop e s = Some {| sample_timestamp := Some (millis_stamp e);
                     input_buf := buf;
                     trace := trace s ++
                       run_classifier_called
                       :: report_events (fst rc) (snd rc)
                            (Fmt_0f (time_to_burnt_of buf))
                            (digitalRead_TOASTING e) |}.
Proof.
  intros HW Hwin Hdue Hok Hfit buf rc.
  rewrite (estimate_fits_spec e s HW Hwin) in Hfit. fold buf in Hfit.
  unfold tick_due in Hdue. unfold loop. rewrite Hdue.
  unfold sensors_ok in Hok. apply andb_prop in Hok as [-> ->].
  cbn [negb].
  rewrite (push_frame_spec WINDOW_LEN HW) by (assumption || apply frame_buf_length).
  cbn [mbind option_bind]. fold buf.
  unfold time_to_burnt_of in *. fold rc in Hfit |- *.
  destruct rc as [res result]. cbn [fst snd] in *.
  rewrite (report_fits res result _ Hfit). reflexivity.
Qed.

(** A completed tick whose estimate does not fit [str_buf] is undefined. *)
Lemma loop_overflow (e : loop_env) (s : state) :
  (1 <= WINDOW_LEN)%nat ->
  window_ok s ->
  tick_due e s = true ->
  sensors_ok (sensors e) = true ->
  estimate_fits e s = false ->
  loop e s = None.
Proof.
  intros HW Hwin Hdue Hok Hfit.
  rewrite (estimate_fits_spec e s HW Hwin) in Hfit.
  unfold tick_due in Hdue. unfold loop. rewrite Hdue.
  unfold sensors_ok in Hok. apply andb_prop in Hok as [-> ->].
  cbn [negb].
  rewrite (push_frame_spec WINDOW_LEN HW) by (assumption || apply frame_buf_length).
  cbn [mbind option_bind].
  unfold time_to_burnt_of in Hfit.
  destruct (run_classifier _ _) as [res result]. cbn [fst snd] in *.
  rewrite (report_overflow res result _ Hfit). reflexivity.
Qed.

(** [setup] either hangs on a failed first SGP30 read or hands [loop] a
    zero-filled window of the declared size. *)
Lemma setup_booted (e : setup_env) (s : state) :
  setup e = Booted s ->
  sgp_measure_signals_err e = STATUS_OK
  /\ sample_timestamp s = None
  /\ input_buf s = replicate (WINDOW_LEN * NUM_CHANNELS) F32.zero
  /\ window_ok s.
Proof.
  unfold setup.
  destruct (sgp_measure_signals_err e =? STATUS_OK) eqn:Herr; cbn [negb];
    [|discriminate].
  intros [= <-]. apply Z.eqb_eq in Herr.
  unfold window_ok. cbn [sample_timestamp input_buf].
  unfold input_buf_init. rewrite length_replicate. auto.
Qed.

Lemma setup_hangs (e : setup_env) :
  sgp_measure_signals_err e <> STATUS_OK -> exists tr, setup e = Hung tr.
Proof.
  intros Herr. unfold setup. apply Z.eqb_neq in Herr. rewrite Herr.
  cbn [negb]. eexists. reflexivity.
Qed.

End Facts.
End PTMFacts.

Module PTMRun.
Import Window EdgeImpulse PTM WindowPush WindowFifo PTMFacts.

Section Run.
Context {ei : library}.
Hypothesis W_pos : (1 <= WINDOW_LEN)%nat.

Lemma pushed_frames_length (envs : list loop_env) (stamp : option Z) :
  Forall (fun f => length f = NUM_CHANNELS) (pushed envs stamp).
Proof.
  revert stamp. induction envs as [|e rest IH]; intros stamp; simpl.
  - constructor.
  - destruct (sample_due _ _); [|apply IH].
    apply Forall_app. split; [|apply IH].
    destruct (sensors_ok _); repeat constructor.
Qed.

(** A run of [loop] calls whose estimates all fit [str_buf] is the
    sequence of pushes of its completed ticks. *)
Lemma run_push_all (envs : list loop_env) (s : state) :
  window_ok s ->
  estimates_fit envs (sample_timestamp s) (input_buf s) = true ->
  exists s', run envs s = Some s'
             /\ window_ok s'
             /\ push_all WINDOW_LEN (pushed envs (sample_timestamp s)) (input_buf s)
                = Some (input_buf s').
Proof.
  revert s. induction envs as [|e rest IH]; intros s Hwin Hfit.
  - exists s. auto.
  - cbn [run pushed]. cbn [estimates_fit] in Hfit.
    destruct (tick_due e s) eqn:Hdue.
    + destruct (sensors_ok (sensors e)) eqn:Hok.
      * pose proof Hdue as Hdue'. unfold tick_due in Hdue'. rewrite Hdue' in Hfit |- *.
        rewrite (push_frame_spec WINDOW_LEN W_pos) in Hfit
          by (assumption || apply frame_buf_length).
        apply andb_prop in Hfit as [Hfit1 Hfit].
        rewrite (loop_completed e s W_pos Hwin Hdue Hok)
          by (rewrite estimate_fits_spec by assumption; exact Hfit1).
        cbn [app push_all].
        rewrite (push_frame_spec WINDOW_LEN W_pos)
          by (assumption || apply frame_buf_length).
        apply IH; [|exact Hfit]. unfold window_ok in *. cbn [input_buf].
        eapply (push_frame_length WINDOW_LEN W_pos);
          [exact Hwin | apply frame_buf_length|].
        apply push_frame_spec; [exact W_pos | exact Hwin | apply frame_buf_length].
      * rewrite (loop_fault e s Hdue Hok).
        unfold tick_due in Hdue. rewrite Hdue in Hfit |- *.
        apply (IH {| sample_timestamp := Some (millis_stamp e);
                     input_buf := input_buf s;
                     trace := trace s ++ _ |}); [exact Hwin | exact Hfit].
    + rewrite (loop_not_due e s Hdue).
      unfold tick_due in Hdue. rewrite Hdue in Hfit |- *.
      apply (IH {| sample_timestamp := Some _;
                   input_buf := input_buf s;
                   trace := trace s |}); [exact Hwin | exact Hfit].
Qed.

(** A run on which some estimate does not fit is undefined. *)
Lemma run_overflow (envs : list loop_env) (s : state) :
  window_ok s ->
  estimates_fit envs (sample_timestamp s) (input_buf s) = false ->
  run envs s = None.
Proof.
  revert s. induction envs as [|e rest IH]; intros s Hwin Hfit.
  - discriminate Hfit.
  - cbn [run]. cbn [estimates_fit] in Hfit.
    destruct (tick_due e s) eqn:Hdue.
    + destruct (sensors_ok (sensors e)) eqn:Hok.
      * pose proof Hdue as Hdue'. unfold tick_due in Hdue'. rewrite Hdue' in Hfit.
        rewrite (push_frame_spec WINDOW_LEN W_pos) in Hfit
          by (assumption || apply frame_buf_length).
        destruct (str_buf_fits _) eqn:Hfit1; cbn [andb] in Hfit.
        -- rewrite (loop_completed e s W_pos Hwin Hdue Hok)
             by (rewrite estimate_fits_spec by assumption; exact Hfit1).
           apply IH; [|exact Hfit]. unfold window_ok in *. cbn [input_buf].
           eapply (push_frame_length WINDOW_LEN W_pos);
             [exact Hwin | apply frame_buf_length|].
           apply push_frame_spec; [exact W_pos | exact Hwin | apply frame_buf_length].
        -- rewrite (loop_overflow e s W_pos Hwin Hdue Hok)
             by (rewrite estimate_fits_spec by assumption; exact Hfit1).
           reflexivity.
      * rewrite (loop_fault e s Hdue Hok).
        unfold tick_due in Hdue. rewrite Hdue in Hfit.
        apply (IH {| sample_timestamp := Some (millis_stamp e);
                     input_buf := input_buf s;
                     trace := trace s ++ _ |}); [exact Hwin | exact Hfit].
    + rewrite (loop_not_due e s Hdue).
      unfold tick_due in Hdue. rewrite Hdue in Hfit.
      apply (IH {| sample_timestamp := Some _;
                   input_buf := input_buf s;
                   trace := trace s |}); [exact Hwin | exact Hfit].
Qed.

End Run.
End PTMRun.

(** * The properties of the specification *)

(** ** Rolling window *)

(** C2. The window push is FIFO over whole frames.  For every sequence of
    [N] raw frames pushed, oldest first, into a window of the declared
    size: every push succeeds; the window is what is left of its old
    contents followed by the standardized frames after [N] whole frames
    ([N * NUM_CHANNELS] slots) are dropped from the front, so it always
    holds [WINDOW_LEN] whole frames and never part of one; its newest frame
    is in the last [NUM_CHANNELS] slots; and once [N >= WINDOW_LEN] it is
    exactly the last [WINDOW_LEN] standardized frames, oldest first.  The
    same holds of the window of the firmware after every run of [loop]
    calls, with [frames] the raw frames of the completed ticks of the run.
    (A run is defined exactly as long as every estimate can be formatted
    into [str_buf]: the overflow of that buffer, later in the tick, is
    undefined, and so is the run from there on.) *)
Theorem window_push_is_fifo (ei : EdgeImpulse.library) :
  (1 <= PTM.WINDOW_LEN)%nat ->
  (forall (frames : list (list float32)) (input_buf : list float32),
     length input_buf = (PTM.WINDOW_LEN * Window.NUM_CHANNELS)%nat ->
     Forall (fun frame => length frame = Window.NUM_CHANNELS) frames ->
     let N := length frames in
     exists buf,
       Window.push_all PTM.WINDOW_LEN frames input_buf = Some buf
       /\ buf = drop (N * Window.NUM_CHANNELS)
                     (input_buf ++ concat (map Window.standardize frames))
       /\ length buf = (PTM.WINDOW_LEN * Window.NUM_CHANNELS)%nat
       /\ (forall newest, last frames = Some newest ->
             drop (Window.final_frame_idx PTM.WINDOW_LEN) buf
             = Window.standardize newest)
       /\ ((PTM.WINDOW_LEN <= N)%nat ->
             buf = concat (drop (N - PTM.WINDOW_LEN) (map Window.standardize frames))))
  /\ (forall (envs : list PTM.loop_env) (s : PTM.state),
        PTM.window_ok s ->
        let frames := PTM.pushed envs (PTM.sample_timestamp s) in
        let N := length frames in
        if PTM.estimates_fit envs (PTM.sample_timestamp s) (PTM.input_buf s) then
          exists s',
            PTM.run envs s = Some s'
            /\ PTM.input_buf s'
               = drop (N * Window.NUM_CHANNELS)
                      (PTM.input_buf s ++ concat (map Window.standardize frames))
            /\ length (PTM.input_buf s') = (PTM.WINDOW_LEN * Window.NUM_CHANNELS)%nat
            /\ (forall newest, last frames = Some newest ->
                  drop (Window.final_frame_idx PTM.WINDOW_LEN) (PTM.input_buf s')
                  = Window.standardize newest)
            /\ ((PTM.WINDOW_LEN <= N)%nat ->
                  PTM.input_buf s'
                  = concat (drop (N - PTM.WINDOW_LEN) (map Window.standardize frames)))
        else PTM.run envs s = None).
Proof.
  intros HW.
  assert (Hpush : forall (frames : list (list float32)) (input_buf : list float32),
     length input_buf = (PTM.WINDOW_LEN * Window.NUM_CHANNELS)%nat ->
     Forall (fun frame => length frame = Window.NUM_CHANNELS) frames ->
     let N := length frames in
     exists buf,
       Window.push_all PTM.WINDOW_LEN frames input_buf = Some buf
       /\ buf = drop (N * Window.NUM_CHANNELS)
                     (input_buf ++ concat (map Window.standardize frames))
       /\ length buf = (PTM.WINDOW_LEN * Window.NUM_CHANNELS)%nat
       /\ (forall newest, last frames = Some newest ->
             drop (Window.final_frame_idx PTM.WINDOW_LEN) buf
             = Window.standardize newest)
       /\ ((PTM.WINDOW_LEN <= N)%nat ->
             buf = concat (drop (N - PTM.WINDOW_LEN) (map Window.standardize frames)))).
  { intros frames buf0 Hlen Hfs N.
    assert (Hbuf : Window.push_all PTM.WINDOW_LEN frames buf0
                   = Some (drop (N * Window.NUM_CHANNELS)
                                (buf0 ++ concat (map Window.standardize frames))))
      by (apply (WindowFifo.push_all_spec _ HW); assumption).
    eexists. split; [exact Hbuf|]. split; [reflexivity|]. split; [|split].
    - rewrite length_drop, length_app,
        (WindowFifo.concat_frames_length Window.NUM_CHANNELS)
        by (apply WindowFifo.standardize_frames; assumption).
      rewrite length_map, Hlen. fold N. nia.
    - intros newest Hlast. apply last_Some in Hlast as [older Holder].
      subst N. rewrite Holder in *.
      apply Forall_app in Hfs as [Holds _].
      rewrite map_app, concat_app, drop_drop. cbn [map concat].
      rewrite app_nil_r, app_assoc. apply drop_app_length'.
      rewrite !length_app, (WindowFifo.concat_frames_length Window.NUM_CHANNELS)
        by (apply WindowFifo.standardize_frames; assumption).
      rewrite length_map, Hlen.
      unfold Window.final_frame_idx. cbn [length]. nia.
    - intros HN.
      rewrite (WindowFifo.push_all_full _ HW) in Hbuf by assumption.
      injection Hbuf as <-. reflexivity. }
  split; [exact Hpush|].
  intros envs s Hwin frames N.
  destruct (PTM.estimates_fit envs (PTM.sample_timestamp s) (PTM.input_buf s))
    eqn:Hfit; [|apply (PTMRun.run_overflow HW); assumption].
  destruct (PTMRun.run_push_all HW envs s Hwin Hfit) as (s' & Hrun & _ & Hrp).
  fold frames in Hrp.
  destruct (Hpush frames (PTM.input_buf s) Hwin
              (PTMRun.pushed_frames_length envs (PTM.sample_timestamp s)))
    as (buf & Hb & Hrest).
  rewrite Hrp in Hb. injection Hb as <-.
  exists s'. split; [exact Hrun | exact Hrest].
Qed.

Lemma window_push_is_fifo_witness :
  let ei := Examples.stub Examples.f39_9 in
  let s := Examples.ptm_state [] in
  let frames := PTM.pushed Examples.ptm_session (PTM.sample_timestamp s) in
  length frames = 22%nat
  /\ exists s',
       PTM.run Examples.ptm_session s = Some s'
       /\ PTM.input_buf s'
          = drop (22 * Window.NUM_CHANNELS)
                 (PTM.input_buf s ++ concat (map Window.standardize frames))
       /\ length (PTM.input_buf s') = (PTM.WINDOW_LEN * Window.NUM_CHANNELS)%nat
       /\ (forall newest, last frames = Some newest ->
             drop (Window.final_frame_idx PTM.WINDOW_LEN) (PTM.input_buf s')
             = Window.standardize newest)
       /\ ((PTM.WINDOW_LEN <= 22)%nat ->
             PTM.input_buf s'
             = concat (drop (22 - PTM.WINDOW_LEN) (map Window.standardize frames))).
Proof.
  intros ei s frames. split; [reflexivity|].
  pose proof (proj2 (window_push_is_fifo ei ltac:(vm_compute; lia))
                Examples.ptm_session s eq_refl) as H.
  cbv zeta in H.
  assert (Hfit : PTM.estimates_fit Examples.ptm_session (PTM.sample_timestamp s)
                   (PTM.input_buf s) = true) by (vm_compute; reflexivity).
  rewrite Hfit in H. exact H.
Defined.

(** ** Standardization *)

Module RollingFacts.
Import Window EdgeImpulse RollingTest WindowPush.


End RollingFacts.





(** ** Sensor faults *)

(** C4. A tick on which a status-returning sensor read (BME680 or SGP30)
    fails is aborted: [loop] returns (nothing halts the device), the window
    is exactly what it was, the classifier is not run, the actuator pin is
    not written and keeps its level, the display is not redrawn, and one
    line naming the failed sensor is logged.  The next due call whose reads
    succeed pushes its frame into that untouched window and runs the
    classifier (the call is defined exactly when its estimate can be
    formatted into [str_buf]). *)
Theorem sensor_fault_aborts_tick (ei : EdgeImpulse.library)
    (e : PTM.loop_env) (s : PTM.state) :
  PTM.tick_due e s = true ->
  Window.sensors_ok (PTM.sensors e) = false ->
  exists s',
    PTM.loop e s = Some s'
    /\ PTM.input_buf s' = PTM.input_buf s
    /\ inferences (PTM.trace s') = inferences (PTM.trace s)
    /\ writes CANCEL_PIN (PTM.trace s') = writes CANCEL_PIN (PTM.trace s)
    /\ pin_level CANCEL_PIN (PTM.trace s') = pin_level CANCEL_PIN (PTM.trace s)
    /\ lcd (PTM.trace s') = lcd (PTM.trace s)
    /\ PTM.trace s'
       = PTM.trace s ++ [Serial_println (Some (Lit (PTM.fault_message (PTM.sensors e))))]
    /\ forall e2,
         (1 <= PTM.WINDOW_LEN)%nat ->
         PTM.window_ok s ->
         PTM.tick_due e2 s' = true ->
         Window.sensors_ok (PTM.sensors e2) = true ->
         if PTM.estimate_fits e2 s' then
           exists s'',
             PTM.loop e2 s' = Some s''
             /\ Window.push_frame PTM.WINDOW_LEN (Window.frame_buf (PTM.sensors e2))
                  (PTM.input_buf s)
                = Some (PTM.input_buf s'')
             /\ inferences (PTM.trace s'') = S (inferences (PTM.trace s))
         else PTM.loop e2 s' = None.
Proof.
  intros Hdue Hbad. eexists. split; [apply PTMFacts.loop_fault; assumption|].
  cbn [PTM.input_buf PTM.trace].
  split; [reflexivity|].
  split; [rewrite inferences_app; cbn; lia|].
  split; [rewrite writes_app; cbn; lia|].
  split; [rewrite pin_level_app; reflexivity|].
  split; [unfold lcd; rewrite display_app; cbn; destruct (display _); reflexivity|].
  split; [reflexivity|].
  intros e2 HW Hwin Hdue2 Hok2.
  destruct (PTM.estimate_fits e2 _) eqn:Hfit2;
    [|apply PTMFacts.loop_overflow; assumption].
  eexists. split; [apply PTMFacts.loop_completed; assumption|].
  cbn [PTM.input_buf PTM.trace]. split.
  - apply WindowPush.push_frame_spec; [assumption | assumption | reflexivity].
  - rewrite !inferences_app.
    change (run_classifier_called :: ?r) with ([run_classifier_called] ++ r).
    rewrite inferences_app, PTMFacts.report_inferences. cbn. lia.
Qed.

Lemma sensor_fault_aborts_tick_witness :
  let ei := Examples.stub Examples.f39_9 in
  let e := Examples.ptm_call 1500 1 Examples.readings_sgp_fault in
  let s := Examples.ptm_state [digitalWrite CANCEL_PIN HIGH] in
  exists s',
    PTM.loop e s = Some s'
    /\ PTM.input_buf s' = PTM.input_buf s
    /\ inferences (PTM.trace s') = 0%nat
    /\ writes CANCEL_PIN (PTM.trace s') = 1%nat
    /\ pin_level CANCEL_PIN (PTM.trace s') = HIGH
    /\ lcd (PTM.trace s') = []
    /\ PTM.trace s'
       = [digitalWrite CANCEL_PIN HIGH;
          Serial_println (Some (Lit "Error: Could not read from SGP30"))]
    /\ forall e2,
         (1 <= PTM.WINDOW_LEN)%nat ->
         PTM.window_ok s ->
         PTM.tick_due e2 s' = true ->
         Window.sensors_ok (PTM.sensors e2) = true ->
         if PTM.estimate_fits e2 s' then
           exists s'',
             PTM.loop e2 s' = Some s''
             /\ Window.push_frame PTM.WINDOW_LEN (Window.frame_buf (PTM.sensors e2))
                  (PTM.input_buf s)
                = Some (PTM.input_buf s'')
             /\ inferences (PTM.trace s'') = 1%nat
         else PTM.loop e2 s' = None.
Proof.
  intros ei e s.
  apply (sensor_fault_aborts_tick ei e s); reflexivity.
Defined.

(** ** The decision threshold *)

(** The [float] comparison against the threshold agrees with the order of
    the integers on whole-second estimates. *)
Lemma ltb_threshold_integers (z : Z) :
  -1024 <= z <= 1024 ->
  F32.ltb (F32.of_Z z) (F32.of_Z PTM.CANCEL_THRESHOLD) = (z <? PTM.CANCEL_THRESHOLD).
Proof.
  intros Hz.
  assert (Hall : forallb
            (fun k => Bool.eqb
               (F32.ltb (F32.of_Z (Z.of_nat k - 1024)) (F32.of_Z PTM.CANCEL_THRESHOLD))
               (Z.of_nat k - 1024 <? PTM.CANCEL_THRESHOLD))
            (seq 0 (Z.to_nat 2049)) = true) by (vm_compute; reflexivity).
  rewrite forallb_forall in Hall.
  specialize (Hall (Z.to_nat (z + 1024))).
  rewrite Z2Nat.id in Hall by lia.
  replace (z + 1024 - 1024) with z in Hall by lia.
  apply Bool.eqb_prop, Hall, in_seq. lia.
Qed.

(** *** When an estimate fits [str_buf] *)

Lemma decimal_digits_upto_pos (fuel : nat) (n : Z) :
  (1 <= decimal_digits_upto fuel n)%nat.
Proof. destruct fuel; cbn; [lia|]. destruct (n <? 10); lia. Qed.

Lemma decimal_digits_upto_le (fuel : nat) (n : Z) (k : nat) :
  0 <= n < 10 * 8 ^ Z.of_nat fuel ->
  (1 <= k)%nat ->
  (decimal_digits_upto fuel n <= k)%nat <-> n < 10 ^ Z.of_nat k.
Proof.
  revert n k. induction fuel as [|fuel IH]; intros n k Hn Hk.
  - cbn in *. assert (10 ^ 1 <= 10 ^ Z.of_nat k)
      by (apply Z.pow_le_mono_r; lia).
    change (10 ^ 1) with 10 in *. split; intros; lia.
  - cbn [decimal_digits_upto]. destruct (Z.ltb_spec n 10) as [Hlt|Hge].
    + assert (10 ^ 1 <= 10 ^ Z.of_nat k) by (apply Z.pow_le_mono_r; lia).
      change (10 ^ 1) with 10 in *. split; intros; lia.
    + pose proof (decimal_digits_upto_pos fuel (n / 10)) as Hpos.
      destruct k as [|[|k]]; [lia| |].
      * change (10 ^ Z.of_nat 1) with 10. split; intros; lia.
      * assert (Hdiv : 0 <= n / 10 < 10 * 8 ^ Z.of_nat fuel).
        { split; [apply Z.div_pos; lia|].
          apply Z.div_lt_upper_bound; [lia|].
          rewrite Nat2Z.inj_succ, Z.pow_succ_r in Hn by lia. lia. }
        specialize (IH (n / 10) (S k) Hdiv ltac:(lia)).
        replace (10 ^ Z.of_nat (S (S k))) with (10 * 10 ^ Z.of_nat (S k))
          by (rewrite (Nat2Z.inj_succ (S k)), Z.pow_succ_r by lia; reflexivity).
        split.
        -- intros Hle. assert (Hq : n / 10 < 10 ^ Z.of_nat (S k))
             by (apply IH; lia).
           pose proof (Z.mul_div_le n 10 ltac:(lia)).
           pose proof (Z.mod_pos_bound n 10 ltac:(lia)).
           pose proof (Z.div_mod n 10 ltac:(lia)). lia.
        -- intros Hlt.
           assert (Hq : n / 10 < 10 ^ Z.of_nat (S k))
             by (apply Z.div_lt_upper_bound; lia).
           apply IH in Hq. lia.
Qed.

(** A number has at most [k] decimal digits exactly when it is below
    [10^k]. *)
Lemma decimal_digits_le (n : Z) (k : nat) :
  0 <= n -> (1 <= k)%nat ->
  (decimal_digits n <= k)%nat <-> n < 10 ^ Z.of_nat k.
Proof.
  intros Hn Hk. unfold decimal_digits.
  apply decimal_digits_upto_le; [|assumption].
  split; [assumption|].
  destruct (Z.eq_dec n 0) as [->|Hnz]; [cbn; lia|].
  pose proof (Z.log2_spec n ltac:(lia)) as [_ Hlog].
  pose proof (Z.log2_nonneg n) as Hl.
  rewrite Z2Nat.id by assumption.
  rewrite Z.pow_succ_r in Hlog by assumption.
  assert (2 ^ Z.log2 n <= 8 ^ Z.log2 n) by (apply Z.pow_le_mono_l; lia).
  lia.
Qed.

Lemma round_half_even_nonneg (m : positive) (e : Z) : 0 <= round_half_even m e.
Proof.
  unfold round_half_even. destruct (0 <=? e) eqn:He.
  - apply Z.leb_le in He. pose proof (Z.pow_pos_nonneg 2 e ltac:(lia) He). lia.
  - apply Z.leb_gt in He.
    assert (0 < 2 ^ (- e)) by (apply Z.pow_pos_nonneg; lia).
    assert (0 <= Z.pos m / 2 ^ (- e)) by (apply Z.div_pos; lia).
    destruct (_ ?= _); [destruct (Z.even _)| |]; lia.
Qed.

(** The rendering of a finite estimate fits [str_buf] exactly when the
    estimate, rounded to an integer, is below [10^19], or above [-10^18]
    when its sign bit is set. *)
Lemma str_buf_fits_finite (sign : bool) (m : positive) (e : Z) :
  PTM.str_buf_fits (S754_finite sign m e) = true
  <-> round_half_even m e < (if sign then 10 ^ 18 else 10 ^ 19).
Proof.
  unfold PTM.str_buf_fits, PTM.STR_BUF_SIZE, fmt_0f_length.
  pose proof (round_half_even_nonneg m e) as Hr.
  rewrite Nat.leb_le. destruct sign.
  - rewrite <- (decimal_digits_le _ 18 Hr ltac:(lia)). lia.
  - rewrite <- (decimal_digits_le _ 19 Hr ltac:(lia)). lia.
Qed.

(** Zeros, infinities and NaN always fit, and so does every [float] of
    magnitude below [2^59]. *)
Lemma str_buf_fits_special (x : float32) :
  (forall sign m e, x <> S754_finite sign m e) -> PTM.str_buf_fits x = true.
Proof.
  intros Hx. destruct x as [[|]|[|]| |sign m e]; try reflexivity.
  exfalso. apply (Hx sign m e). reflexivity.
Qed.

Lemma str_buf_fits_below_2_59 (sign : bool) (m : positive) (e : Z) :
  Z.pos m < 2 ^ 24 -> e <= 35 ->
  PTM.str_buf_fits (S754_finite sign m e) = true.
Proof.
  intros Hm He. apply str_buf_fits_finite.
  assert (Hr : round_half_even m e < 2 ^ 59).
  { unfold round_half_even. destruct (0 <=? e) eqn:H0.
    - apply Z.leb_le in H0.
      assert (2 ^ e <= 2 ^ 35) by (apply Z.pow_le_mono_r; lia).
      assert (0 < 2 ^ e) by (apply Z.pow_pos_nonneg; lia).
      change (2 ^ 59) with (2 ^ 24 * 2 ^ 35). nia.
    - apply Z.leb_gt in H0.
      assert (Hd : 2 <= 2 ^ (- e)).
      { change 2 with (2 ^ 1) at 1. apply Z.pow_le_mono_r; lia. }
      assert (Hq : Z.pos m / 2 ^ (- e) <= Z.pos m / 2)
        by (apply Z.div_le_compat_l; lia).
      assert (Z.pos m / 2 < 2 ^ 23)
        by (apply Z.div_lt_upper_bound; [lia|]; change (2 * 2 ^ 23) with (2 ^ 24); lia).
      assert (2 ^ 23 + 1 < 2 ^ 59) by reflexivity.
      destruct (_ ?= _); [destruct (Z.even _)| |]; lia. }
  assert (2 ^ 59 < 10 ^ 18) by reflexivity.
  assert (10 ^ 18 < 10 ^ 19) by reflexivity.
  destruct sign; lia.
Qed.

(** C1. On a completed tick whose estimate [sprintf] can format into
    [str_buf], whatever the classifier returns, the level the tick leaves
    on the cancel pin is HIGH exactly when the time-to-burnt estimate
    (classification index 0 for the window just built) is strictly below
    [CANCEL_THRESHOLD] in the [float] order, and LOW otherwise.  An
    estimate of [CANCEL_THRESHOLD - 1] asserts, one of [CANCEL_THRESHOLD]
    does not, and for whole-second estimates the test is the integer [<].
    On a completed tick whose estimate takes twenty characters or more,
    [sprintf] overflows [str_buf] before the threshold is tested: the call
    is undefined and no actuator command is computed. *)
Theorem cancel_asserted_iff_below_threshold (ei : EdgeImpulse.library)
    (e : PTM.loop_env) (s : PTM.state) :
  (1 <= PTM.WINDOW_LEN)%nat ->
  PTM.window_ok s ->
  PTM.tick_due e s = true ->
  Window.sensors_ok (PTM.sensors e) = true ->
  if PTM.estimate_fits e s then
    exists s',
      PTM.loop e s = Some s'
      /\ let time_to_burnt := PTM.time_to_burnt_of (PTM.input_buf s') in
         let cancel := pin_level CANCEL_PIN (PTM.trace s') in
         (cancel = HIGH <-> F32.ltb time_to_burnt (F32.of_Z PTM.CANCEL_THRESHOLD) = true)
         /\ (cancel = LOW <-> F32.ltb time_to_burnt (F32.of_Z PTM.CANCEL_THRESHOLD) = false)
         /\ (time_to_burnt = F32.of_Z (PTM.CANCEL_THRESHOLD - 1) -> cancel = HIGH)
         /\ (time_to_burnt = F32.of_Z PTM.CANCEL_THRESHOLD -> cancel = LOW)
         /\ (forall z, -1024 <= z <= 1024 -> time_to_burnt = F32.of_Z z ->
               (cancel = HIGH <-> z < PTM.CANCEL_THRESHOLD))
  else PTM.loop e s = None.
Proof.
  intros HW Hwin Hdue Hok.
  destruct (PTM.estimate_fits e s) eqn:Hfit;
    [|apply PTMFacts.loop_overflow; assumption].
  eexists. split; [apply PTMFacts.loop_completed; assumption|].
  cbn [PTM.input_buf PTM.trace].
  rewrite pin_level_app. cbn [fold_left pin_step]. rewrite PTMFacts.report_pin.
  unfold PTM.time_to_burnt_of.
  set (ttb := EdgeImpulse.classification _ 0).
  split; [|split; [|split; [|split]]].
  - destruct (F32.ltb _ _); split; intros H; try reflexivity; discriminate H.
  - destruct (F32.ltb _ _); split; intros H; try reflexivity; discriminate H.
  - intros ->. reflexivity.
  - intros ->. reflexivity.
  - intros z Hz ->. rewrite ltb_threshold_integers by assumption.
    destruct (Z.ltb_spec z PTM.CANCEL_THRESHOLD) as [Hlt|Hge]; split; intros Hc;
      try reflexivity; try assumption; try discriminate Hc; lia.
Qed.

Lemma cancel_asserted_iff_below_threshold_witness :
  let e := Examples.ptm_call 1500 1 Examples.readings_ok in
  let s := Examples.ptm_state [] in
  (let ei := Examples.stub Examples.f39 in
   exists s',
     PTM.loop e s = Some s'
     /\ let time_to_burnt := PTM.time_to_burnt_of (PTM.input_buf s') in
        let cancel := pin_level CANCEL_PIN (PTM.trace s') in
        (cancel = HIGH <-> F32.ltb time_to_burnt (F32.of_Z PTM.CANCEL_THRESHOLD) = true)
        /\ (cancel = LOW <-> F32.ltb time_to_burnt (F32.of_Z PTM.CANCEL_THRESHOLD) = false)
        /\ (time_to_burnt = F32.of_Z (PTM.CANCEL_THRESHOLD - 1) -> cancel = HIGH)
        /\ (time_to_burnt = F32.of_Z PTM.CANCEL_THRESHOLD -> cancel = LOW)
        /\ (forall z, -1024 <= z <= 1024 -> time_to_burnt = F32.of_Z z ->
              (cancel = HIGH <-> z < PTM.CANCEL_THRESHOLD)))
  /\ (let ei := Examples.stub Examples.f_2_64 in
      fmt_0f_length Examples.f_2_64 = 20%nat
      /\ F32.ltb Examples.f_2_64 (F32.of_Z PTM.CANCEL_THRESHOLD) = false
      /\ PTM.loop e s = None)
  /\ (let ei := Examples.stub Examples.f_minus_2_60 in
      fmt_0f_length Examples.f_minus_2_60 = 20%nat
      /\ F32.ltb Examples.f_minus_2_60 (F32.of_Z PTM.CANCEL_THRESHOLD) = true
      /\ PTM.loop e s = None).
Proof.
  intros e s. split; [|split].
  - intros ei.
    apply (cancel_asserted_iff_below_threshold ei e s).
    + vm_compute. lia.
    + reflexivity.
    + reflexivity.
    + reflexivity.
  - intros ei. split; [reflexivity|]. split; [reflexivity|].
    apply (cancel_asserted_iff_below_threshold ei e s).
    + vm_compute. lia.
    + reflexivity.
    + reflexivity.
    + reflexivity.
  - intros ei. split; [reflexivity|]. split; [reflexivity|].
    apply (cancel_asserted_iff_below_threshold ei e s).
    + vm_compute. lia.
    + reflexivity.
    + reflexivity.
    + reflexivity.
Defined.

(** ** The sampling gate *)



(** ** The window-slice callback *)




(** ** Actuator and display *)

(** C6, as the specification states it, fails on two counts.  A due tick
    whose BME680 read fails writes the cancel pin not at all and leaves the
    display as it was; and a completed tick with an estimate at the
    threshold and the toaster off draws the estimate without any status
    text. *)
Lemma tick_without_write_or_status :
  let ei := Examples.stub Examples.f40 in
  let s := Examples.ptm_state [] in
  (let e := Examples.ptm_call 1500 1 Examples.readings_bme_fault in
   PTM.tick_due e s = true
   /\ exists s', PTM.loop e s = Some s'
                 /\ writes CANCEL_PIN (PTM.trace s') = 0%nat
                 /\ lcd (PTM.trace s') = lcd (PTM.trace s))
  /\ (let e := Examples.ptm_call 1500 0 Examples.readings_ok in
      PTM.tick_due e s = true
      /\ exists s', PTM.loop e s = Some s'
                    /\ lcd (PTM.trace s') = [(Fmt_0f Examples.f40, 115, 100)]).
Proof.
  intros ei s. split.
  - split; [reflexivity|]. eexists. split; [vm_compute; reflexivity|].
    split; reflexivity.
  - split; [reflexivity|]. eexists. split; [vm_compute; reflexivity|].
    reflexivity.
Qed.

(** C6, amended.  Take a due tick on a window of the declared size and,
    for a tick whose sensor reads succeed, an estimate whose "%.0f"
    rendering fits [str_buf].  The tick returns.  When its sensor reads
    succeed, [loop] writes the cancel pin exactly once, to the computed
    level: HIGH when the estimate is below the threshold and LOW
    otherwise; and it redraws the display with the estimate followed by the
    status line: "Done!" when the pin is asserted, "Toasting..." when it is
    not and the toasting-sense input reads high, and no status text
    otherwise.  When a sensor read fails, the tick writes neither the pin
    nor the display. *)
Theorem completed_tick_writes_pin_and_display (ei : EdgeImpulse.library)
    (e : PTM.loop_env) (s : PTM.state) :
  (1 <= PTM.WINDOW_LEN)%nat ->
  PTM.window_ok s ->
  PTM.tick_due e s = true ->
  (Window.sensors_ok (PTM.sensors e) = true -> PTM.estimate_fits e s = true) ->
  exists s',
    PTM.loop e s = Some s'
    /\ if Window.sensors_ok (PTM.sensors e) then
         let time_to_burnt := PTM.time_to_burnt_of (PTM.input_buf s') in
         writes CANCEL_PIN (PTM.trace s') = S (writes CANCEL_PIN (PTM.trace s))
         /\ pin_level CANCEL_PIN (PTM.trace s')
            = (if F32.ltb time_to_burnt (F32.of_Z PTM.CANCEL_THRESHOLD)
               then HIGH else LOW)
         /\ lcd (PTM.trace s')
            = (Fmt_0f time_to_burnt, 115, 100)
              :: PTM.status_text time_to_burnt (PTM.digitalRead_TOASTING e)
       else
         writes CANCEL_PIN (PTM.trace s') = writes CANCEL_PIN (PTM.trace s)
         /\ pin_level CANCEL_PIN (PTM.trace s') = pin_level CANCEL_PIN (PTM.trace s)
         /\ lcd (PTM.trace s') = lcd (PTM.trace s).
Proof.
  intros HW Hwin Hdue Hfit.
  destruct (Window.sensors_ok (PTM.sensors e)) eqn:Hok.
  - eexists. split; [apply PTMFacts.loop_completed; auto|].
    cbn [PTM.input_buf PTM.trace]. unfold PTM.time_to_burnt_of.
    split; [|split].
    + rewrite writes_app.
      change (run_classifier_called :: ?r) with ([run_classifier_called] ++ r).
      rewrite writes_app, PTMFacts.report_writes. cbn. lia.
    + rewrite pin_level_app. cbn [fold_left pin_step]. apply PTMFacts.report_pin.
    + unfold lcd. rewrite display_app. cbn [fold_left].
      apply PTMFacts.report_display.
  - eexists. split; [apply PTMFacts.loop_fault; assumption|].
    cbn [PTM.trace]. split; [|split].
    + rewrite writes_app. cbn. lia.
    + rewrite pin_level_app. reflexivity.
    + unfold lcd. rewrite display_app. cbn. destruct (display _). reflexivity.
Qed.

Lemma completed_tick_writes_pin_and_display_witness :
  let ei := Examples.stub Examples.f39_9 in
  let s := Examples.ptm_state [] in
  (let e := Examples.ptm_call 1500 1 Examples.readings_ok in
   exists s',
     PTM.loop e s = Some s'
     /\ writes CANCEL_PIN (PTM.trace s') = 1%nat
     /\ pin_level CANCEL_PIN (PTM.trace s') = HIGH
     /\ lcd (PTM.trace s')
        = [(Fmt_0f Examples.f39_9, 115, 100); (Lit "Done!", 90, 30)])
  /\ (let e := Examples.ptm_call 1500 1 Examples.readings_sgp_fault in
      exists s',
        PTM.loop e s = Some s'
        /\ writes CANCEL_PIN (PTM.trace s') = 0%nat
        /\ pin_level CANCEL_PIN (PTM.trace s') = LOW
        /\ lcd (PTM.trace s') = []).
Proof.
  intros ei s. split.
  - intros e.
    apply (completed_tick_writes_pin_and_display ei e s);
      [vm_compute; lia | reflexivity | reflexivity
      | intros _; vm_compute; reflexivity].
  - intros e.
    apply (completed_tick_writes_pin_and_display ei e s);
      [vm_compute; lia | reflexivity | reflexivity
      | intros Hok; vm_compute in Hok; discriminate Hok].
Defined.

(** ** The decision controller *)

(** C5, as the specification states it, fails: with the actuator asserted
    and the toasting-sense input low, a tick whose estimate is still below
    the threshold leaves the controller CANCELLED; it is not re-armed, and
    it stays CANCELLED on the next tick, when the input reads high again. *)
Lemma toasting_low_does_not_rearm :
  let ei := Examples.stub Examples.f39 in
  let s := Examples.ptm_state [digitalWrite CANCEL_PIN HIGH] in
  let off := Examples.ptm_call 1500 LOW Examples.readings_ok in
  let on := Examples.ptm_call 2000 HIGH Examples.readings_ok in
  PTM.controller_state (PTM.trace s) = PTM.CANCELLED
  /\ exists s1 s2,
       PTM.loop off s = Some s1
       /\ PTM.controller_state (PTM.trace s1) = PTM.CANCELLED
       /\ PTM.loop on s1 = Some s2
       /\ PTM.controller_state (PTM.trace s2) = PTM.CANCELLED.
Proof.
  intros ei s off on. split; [reflexivity|].
  destruct (PTM.loop off s) as [s1|] eqn:H1; [|vm_compute in H1; discriminate H1].
  destruct (PTM.loop on s1) as [s2|] eqn:H2.
  - exists s1, s2. vm_compute in H1. injection H1 as <-.
    vm_compute in H2. injection H2 as <-.
    repeat split; reflexivity.
  - vm_compute in H1. injection H1 as <-. vm_compute in H2. discriminate H2.
Qed.

(** C5, amended.  The decision controller has the two states ARMED (cancel
    pin low) and CANCELLED (cancel pin high) and no memory.  Take a call of
    [loop] on a window of the declared size and, for a due tick whose
    sensor reads succeed, an estimate whose "%.0f" rendering fits
    [str_buf].  The call returns.  After a completed tick the
    controller is CANCELLED when the estimate is below [CANCEL_THRESHOLD]
    and ARMED otherwise, whatever its state before and whatever the
    toasting-sense input reads: it goes from ARMED to CANCELLED when the
    estimate falls below the threshold, and it re-arms by itself, without
    manual reset, on the first completed tick whose estimate is not below
    it.  A call that is not due or that aborts on a sensor fault leaves the
    controller in its state. *)
Theorem controller_follows_estimate (ei : EdgeImpulse.library)
    (e : PTM.loop_env) (s : PTM.state) :
  (1 <= PTM.WINDOW_LEN)%nat ->
  PTM.window_ok s ->
  (PTM.tick_due e s && Window.sensors_ok (PTM.sensors e) = true ->
   PTM.estimate_fits e s = true) ->
  exists s',
    PTM.loop e s = Some s'
    /\ PTM.window_ok s'
    /\ PTM.controller_state (PTM.trace s')
       = if PTM.tick_due e s && Window.sensors_ok (PTM.sensors e)
         then if F32.ltb (PTM.time_to_burnt_of (PTM.input_buf s'))
                         (F32.of_Z PTM.CANCEL_THRESHOLD)
              then PTM.CANCELLED else PTM.ARMED
         else PTM.controller_state (PTM.trace s).
Proof.
  intros HW Hwin Hfit.
  destruct (PTM.tick_due e s) eqn:Hdue; cbn [andb] in Hfit |- *.
  - destruct (Window.sensors_ok (PTM.sensors e)) eqn:Hok.
    + eexists. split; [apply PTMFacts.loop_completed; auto|].
      cbn [PTM.input_buf PTM.trace]. split.
      * unfold PTM.window_ok in *. cbn [PTM.input_buf].
        eapply (WindowPush.push_frame_length PTM.WINDOW_LEN HW);
          [exact Hwin | apply PTMFacts.frame_buf_length|].
        apply WindowPush.push_frame_spec;
          [exact HW | exact Hwin | apply PTMFacts.frame_buf_length].
      * unfold PTM.controller_state, PTM.time_to_burnt_of.
        rewrite pin_level_app. cbn [fold_left pin_step].
        rewrite PTMFacts.report_pin.
        destruct (F32.ltb _ _); reflexivity.
    + eexists. split; [apply PTMFacts.loop_fault; assumption|].
      split; [exact Hwin|]. cbn [PTM.trace].
      unfold PTM.controller_state. rewrite pin_level_app. reflexivity.
  - eexists. split; [apply PTMFacts.loop_not_due; assumption|].
    split; [exact Hwin|]. reflexivity.
Qed.

Lemma controller_follows_estimate_witness :
  let ei := Examples.stub Examples.f40 in
  let e := Examples.ptm_call 1500 LOW Examples.readings_ok in
  let s := Examples.ptm_state [digitalWrite CANCEL_PIN HIGH] in
  PTM.controller_state (PTM.trace s) = PTM.CANCELLED
  /\ exists s',
       PTM.loop e s = Some s'
       /\ PTM.window_ok s'
       /\ PTM.controller_state (PTM.trace s') = PTM.ARMED.
Proof.
  intros ei e s. split; [reflexivity|].
  apply (controller_follows_estimate ei e s).
  - vm_compute. lia.
  - reflexivity.
  - intros _. vm_compute. reflexivity.
Defined.

(** ** The labelling button, one call of [loop] at a time *)

Module ButtonFacts.
Import DataCollection.

Lemma run_app (a b : list loop_env) (s : state) :
  run (a ++ b) s = run b (run a s).
Proof. unfold run. apply fold_left_app. Qed.

Lemma mode_changes_app (tr out : list event) :
  mode_changes (tr ++ out) = (mode_changes tr + mode_changes out)%nat.
Proof. unfold mode_changes. rewrite List.filter_app, length_app. reflexivity. Qed.

Lemma mode_screen_changes (m : Z) : mode_changes (mode_screen m) = 0%nat.
Proof.
  unfold mode_screen.
  repeat match goal with |- context [if ?b then _ else _] => destruct b end;
    reflexivity.
Qed.

Lemma csv_row_changes (a b m : Z) (r : Window.readings) :
  mode_changes (csv_row a b m r) = 0%nat.
Proof. reflexivity. Qed.

(** What the debounce part computes. *)
Lemma debounce_spec (e : loop_env) (s : state) (start : Z) :
  exists start' out,
    debounce e s start
    = (if commits e s && (uint8 (digitalRead_BTN e) =? LOW)
       then next_mode (mode s) else mode s,
       if commits e s then uint8 (digitalRead_BTN e) else btn_state s,
       edge_time e s, start', out)
    /\ mode_changes out
       = if commits e s && (uint8 (digitalRead_BTN e) =? LOW) then 1%nat else 0%nat.
Proof.
  unfold debounce, commits, settled. fold (edge_time e s).
  destruct (DEBOUNCE_DELAY <? ulong_sub (millis_check e) (edge_time e s));
    cbn [andb]; [|eexists _, _; split; reflexivity].
  destruct (negb (digitalRead_BTN e =? btn_state s));
    [|eexists _, _; split; reflexivity].
  destruct (uint8 (digitalRead_BTN e) =? LOW);
    [|eexists _, _; split; reflexivity].
  eexists _, _. split; [reflexivity|].
  change (tft_fillScreen :: ?l) with ([tft_fillScreen] ++ l).
  rewrite mode_changes_app, mode_screen_changes. reflexivity.
Qed.

(** What one call of [loop] does to the button statics and the mode. *)
Lemma loop_button (e : loop_env) (s : state) :
  let advance := commits e s && (uint8 (digitalRead_BTN e) =? LOW) in
  last_btn_state (loop e s) = uint8 (digitalRead_BTN e)
  /\ last_dbnc_time (loop e s) = edge_time e s
  /\ btn_state (loop e s)
     = (if commits e s then uint8 (digitalRead_BTN e) else btn_state s)
  /\ mode (loop e s) = (if advance then next_mode (mode s) else mode s)
  /\ mode_changes (trace (loop e s))
     = (mode_changes (trace s) + if advance then 1 else 0)%nat.
Proof.
  intros advance. unfold loop.
  destruct (debounce_spec e s (default (millis_static_start e) (start_timestamp s)))
    as (start' & out & -> & Hout).
  fold advance in Hout |- *.
  destruct (_ && sample_due _ _); cbn [last_btn_state last_dbnc_time btn_state mode trace].
  - repeat (split; [reflexivity|]).
    rewrite mode_changes_app.
    destruct (negb (Window.bme680_read_sensor_data _ =? 0));
      [|destruct (negb (Window.sgp_err _ =? STATUS_OK))];
      rewrite mode_changes_app, Hout; cbn; try rewrite csv_row_changes; lia.
  - repeat (split; [reflexivity|]).
    rewrite mode_changes_app, Hout. reflexivity.
Qed.

Lemma uint8_level (lvl : Z) : lvl = LOW \/ lvl = HIGH -> uint8 lvl = lvl.
Proof. intros [->| ->]; reflexivity. Qed.

(** A run of calls that read the same level [lvl], the level change
    (if any) dated [t0]: the reading is committed once, by the first call
    that finds it settled, and only a committed LOW advances the mode. *)
Lemma run_held (lvl t0 : Z) (ins : list loop_env) (s : state) :
  lvl = LOW \/ lvl = HIGH ->
  held lvl ins = true ->
  (forall first rest, ins = first :: rest -> edge_time first s = t0) ->
  let c := existsb (settled t0) ins && negb (lvl =? btn_state s) in
  let s' := run ins s in
  (ins <> [] -> last_btn_state s' = lvl /\ last_dbnc_time s' = t0)
  /\ btn_state s' = (if c then lvl else btn_state s)
  /\ mode s' = (if c && (lvl =? LOW) then next_mode (mode s) else mode s)
  /\ mode_changes (trace s')
     = (mode_changes (trace s) + if c && (lvl =? LOW)%Z then 1 else 0)%nat.
Proof.
  intros Hlvl. revert s.
  induction ins as [|e rest IH]; intros s Hheld Hedge.
  - cbn. split; [intros Hnil; contradiction|].
    split; [reflexivity|]. split; [reflexivity|]. lia.
  - cbn [held forallb] in Hheld. apply andb_prop in Hheld as [Hr Hrest].
    apply Z.eqb_eq in Hr.
    specialize (Hedge e rest eq_refl).
    destruct (loop_button e s) as (Hl & Ht & Hb & Hm & Hc).
    unfold commits in Hb, Hm, Hc.
    rewrite Hr, (uint8_level lvl Hlvl) in Hl, Hb, Hm, Hc.
    rewrite Hedge in Ht, Hb, Hm, Hc.
    assert (Hnext : forall first rest', rest = first :: rest' ->
                      edge_time first (loop e s) = t0).
    { intros first rest' ->. cbn [held forallb] in Hrest.
      apply andb_prop in Hrest as [Hf _]. apply Z.eqb_eq in Hf.
      unfold edge_time. rewrite Hl, Hf, Z.eqb_refl. exact Ht. }
    destruct (IH (loop e s) Hrest Hnext) as (IHl & IHb & IHm & IHc).
    change (run (e :: rest) s) with (run rest (loop e s)).
    cbn [existsb].
    split; [|split; [|split]].
    + intros _. destruct rest as [|e2 rest2]; [cbn; auto|].
      apply IHl. discriminate.
    + rewrite IHb, Hb.
      destruct (settled t0 e), (existsb (settled t0) rest),
        (lvl =? btn_state s) eqn:Hne; cbn; rewrite ?Z.eqb_refl; cbn;
        rewrite ?Hne; reflexivity.
    + rewrite IHm, Hm, Hb.
      destruct (settled t0 e), (existsb (settled t0) rest),
        (lvl =? btn_state s) eqn:Hne; cbn; rewrite ?Z.eqb_refl; cbn;
        rewrite ?Hne; cbn; try reflexivity;
        destruct (lvl =? LOW); reflexivity.
    + rewrite IHc, Hc, Hb.
      destruct (settled t0 e), (existsb (settled t0) rest),
        (lvl =? btn_state s) eqn:Hne; cbn; rewrite ?Z.eqb_refl; cbn;
        rewrite ?Hne; cbn; try lia;
        destruct (lvl =? LOW); lia.
Qed.

Lemma existsb_pointwise {A} (f g : A -> bool) (l : list A) :
  (forall x, f x = g x) -> existsb f l = existsb g l.
Proof. intros H. induction l as [|x l IH]; cbn; [reflexivity|]. rewrite H, IH. reflexivity. Qed.

Lemma never_settled (first : loop_env) (ins : list loop_env) :
  forallb (fun e => stable_ms first e <=? DEBOUNCE_DELAY) ins = true ->
  existsb (settled (millis_dbnc first)) ins = false.
Proof.
  induction ins as [|e rest IH]; cbn; [reflexivity|].
  intros H. apply andb_prop in H as [He Hrest].
  rewrite (IH Hrest), orb_false_r.
  unfold settled. fold (stable_ms first e).
  apply Z.ltb_ge, Z.leb_le. exact He.
Qed.

Lemma settles (first : loop_env) (ins : list loop_env) :
  existsb (settled (millis_dbnc first)) ins
  = existsb (fun e => DEBOUNCE_DELAY + 1 <=? stable_ms first e) ins.
Proof.
  apply existsb_pointwise. intros e. unfold settled. fold (stable_ms first e).
  destruct (Z.ltb_spec DEBOUNCE_DELAY (stable_ms first e)),
           (Z.leb_spec (DEBOUNCE_DELAY + 1) (stable_ms first e));
    try reflexivity; lia.
Qed.

Lemma edge_time_changed (e : loop_env) (s : state) :
  digitalRead_BTN e <> last_btn_state s -> edge_time e s = millis_dbnc e.
Proof.
  intros H. unfold edge_time. apply Z.eqb_neq in H. rewrite H. reflexivity.
Qed.

(** A level that toggles back before it settles leaves the committed
    state and the mode alone. *)
Lemma brief_run (lvl : Z) (r : list loop_env) (s : state) :
  lvl = LOW \/ lvl = HIGH ->
  last_btn_state s <> lvl ->
  brief lvl r = true ->
  last_btn_state (run r s) = lvl
  /\ btn_state (run r s) = btn_state s
  /\ mode (run r s) = mode s
  /\ mode_changes (trace (run r s)) = mode_changes (trace s).
Proof.
  intros Hlvl Hne Hb. destruct r as [|first rest]; [discriminate Hb|].
  unfold brief in Hb. apply andb_prop in Hb as [Hheld Hall].
  assert (Hfirst : digitalRead_BTN first = lvl).
  { cbn [held forallb] in Hheld. apply andb_prop in Hheld as [H _].
    apply Z.eqb_eq. exact H. }
  destruct (run_held lvl (millis_dbnc first) (first :: rest) s Hlvl Hheld)
    as (Hl & Hbs & Hm & Hc).
  { intros f r' [= <- <-]. apply edge_time_changed. congruence. }
  rewrite (never_settled first _ Hall) in Hbs, Hm, Hc. cbn [andb] in Hbs, Hm, Hc.
  split; [apply Hl; discriminate|].
  split; [exact Hbs|]. split; [exact Hm|]. lia.
Qed.

(** A level held until it settles is committed; a committed press
    advances the mode by one step, a committed release does not. *)
Lemma sustained_run (lvl : Z) (r : list loop_env) (s : state) :
  lvl = LOW \/ lvl = HIGH ->
  last_btn_state s <> lvl ->
  btn_state s <> lvl ->
  sustained lvl r = true ->
  last_btn_state (run r s) = lvl
  /\ btn_state (run r s) = lvl
  /\ mode (run r s) = (if lvl =? LOW then next_mode (mode s) else mode s)
  /\ mode_changes (trace (run r s))
     = (mode_changes (trace s) + if (lvl =? LOW)%Z then 1 else 0)%nat.
Proof.
  intros Hlvl Hne Hbne Hs. destruct r as [|first rest]; [discriminate Hs|].
  unfold sustained, held_for in Hs. apply andb_prop in Hs as [Hheld Hex].
  assert (Hfirst : digitalRead_BTN first = lvl).
  { cbn [held forallb] in Hheld. apply andb_prop in Hheld as [H _].
    apply Z.eqb_eq. exact H. }
  destruct (run_held lvl (millis_dbnc first) (first :: rest) s Hlvl Hheld)
    as (Hl & Hbs & Hm & Hc).
  { intros f r' [= <- <-]. apply edge_time_changed. congruence. }
  rewrite settles, Hex in Hbs, Hm, Hc.
  assert (Hneq : (lvl =? btn_state s) = false) by (apply Z.eqb_neq; congruence).
  rewrite Hneq in Hbs, Hm, Hc. cbn [andb negb] in Hbs, Hm, Hc.
  split; [apply Hl; discriminate|]. auto.
Qed.

(** While the button reads HIGH the mode does not move. *)
Lemma released_run (r : list loop_env) (s : state) :
  held HIGH r = true ->
  mode (run r s) = mode s
  /\ mode_changes (trace (run r s)) = mode_changes (trace s).
Proof.
  intros Hheld. destruct r as [|first rest]; [split; reflexivity|].
  destruct (run_held HIGH (edge_time first s) (first :: rest) s
              (or_intror eq_refl) Hheld) as (_ & _ & Hm & Hc).
  { intros f r' [= <- <-]. reflexivity. }
  change (HIGH =? LOW) with false in Hm, Hc.
  rewrite andb_false_r in Hm, Hc. split; [exact Hm | lia].
Qed.

(** While the button keeps the level already committed nothing moves. *)
Lemma steady_run (lvl : Z) (ins : list loop_env) (s : state) :
  lvl = LOW \/ lvl = HIGH ->
  last_btn_state s = lvl ->
  btn_state s = lvl ->
  held lvl ins = true ->
  last_btn_state (run ins s) = lvl
  /\ mode (run ins s) = mode s
  /\ mode_changes (trace (run ins s)) = mode_changes (trace s).
Proof.
  intros Hlvl Hl Hb Hheld.
  destruct (run_held lvl (last_dbnc_time s) ins s Hlvl Hheld) as (Hl' & _ & Hm & Hc).
  { intros first rest ->. cbn [held forallb] in Hheld.
    apply andb_prop in Hheld as [Hf _]. apply Z.eqb_eq in Hf.
    unfold edge_time. rewrite Hl, Hf, Z.eqb_refl. reflexivity. }
  rewrite Hb, Z.eqb_refl, andb_false_r in Hm, Hc. cbn [andb] in Hm, Hc.
  split; [|split; [exact Hm | lia]].
  destruct ins as [|e rest]; [exact Hl|]. apply Hl'. discriminate.
Qed.

Lemma toggling_run (runs : list (list loop_env)) (s : state) :
  last_btn_state s = LOW \/ last_btn_state s = HIGH ->
  toggling (last_btn_state s) runs = true ->
  mode (run (concat runs) s) = mode s
  /\ mode_changes (trace (run (concat runs) s)) = mode_changes (trace s).
Proof.
  revert s. induction runs as [|r rest IH]; intros s Hlast Htog.
  - split; reflexivity.
  - cbn [toggling] in Htog. apply andb_prop in Htog as [Hb Hrest].
    set (lvl := HIGH + LOW - last_btn_state s) in *.
    assert (Hlvl : lvl = LOW \/ lvl = HIGH).
    { unfold lvl. destruct Hlast as [-> | ->]; [right|left]; reflexivity. }
    assert (Hne : last_btn_state s <> lvl).
    { unfold lvl. destruct Hlast as [-> | ->]; discriminate. }
    destruct (brief_run lvl r s Hlvl Hne Hb) as (Hl & _ & Hm & Hc).
    cbn [concat]. rewrite run_app.
    destruct (IH (run r s)) as (IHm & IHc).
    + rewrite Hl. exact Hlvl.
    + rewrite Hl. exact Hrest.
    + split; congruence.
Qed.

Lemma press_run (p : list loop_env) (s : state) :
  btn_state s = HIGH -> last_btn_state s = HIGH ->
  sustained LOW p = true ->
  btn_state (run p s) = LOW
  /\ last_btn_state (run p s) = LOW
  /\ mode (run p s) = next_mode (mode s)
  /\ mode_changes (trace (run p s)) = S (mode_changes (trace s)).
Proof.
  intros Hb Hl Hs.
  destruct (sustained_run LOW p s (or_introl eq_refl)) as (H1 & H2 & H3 & H4);
    [rewrite Hl; discriminate | rewrite Hb; discriminate | exact Hs |].
  change (LOW =? LOW) with true in H3, H4. cbv beta iota in H3, H4.
  split; [exact H2|]. split; [exact H1|]. split; [exact H3 | lia].
Qed.






End ButtonFacts.

(** ** Debounce *)

(** C8, as the specification states it, fails.  A press seen stable for
    exactly [DEBOUNCE_DELAY] ms and then released changes no mode, although
    it is held for at least [DEBOUNCE_DELAY] ms; and a sustained transition
    that is a release (after a press that took the mode to BACKGROUND)
    advances no mode either. *)
Lemma held_exactly_debounce_delay_no_advance :
  let s := Examples.dc_rest DataCollection.MODE_IDLE in
  let press := Examples.dc_hold LOW 1000 3 in
  let release := Examples.dc_hold HIGH 1031 10 in
  (DataCollection.held_for DEBOUNCE_DELAY LOW press = true
   /\ DataCollection.mode (DataCollection.run (press ++ release) s)
      = DataCollection.MODE_IDLE
   /\ DataCollection.mode_changes
        (DataCollection.trace (DataCollection.run (press ++ release) s)) = 0%nat)
  /\ (let pressed := DataCollection.run (Examples.dc_hold LOW 1000 5) s in
      let released := Examples.dc_hold HIGH 1060 10 in
      DataCollection.mode pressed = DataCollection.MODE_BACKGROUND
      /\ DataCollection.held_for DEBOUNCE_DELAY HIGH released = true
      /\ DataCollection.mode (DataCollection.run released pressed)
         = DataCollection.MODE_BACKGROUND
      /\ DataCollection.mode_changes
           (DataCollection.trace (DataCollection.run released pressed))
         = DataCollection.mode_changes (DataCollection.trace pressed)).
Proof. vm_compute. repeat split. Qed.

(** C8, amended.  From any state of the sketch, after any run of calls
    that read the level already committed: if the button then toggles
    faster than the debounce delay (every level is seen to change again
    before a call finds it stable for more than [DEBOUNCE_DELAY] ms), no
    mode transition occurs; and from the button at rest, a single press
    that some call finds stable for more than [DEBOUNCE_DELAY] ms, however
    long it is held and whatever HIGH readings follow it, advances the mode
    exactly once. *)
Theorem debounce_filters_bounces_and_commits_once (s : DataCollection.state) :
  (forall idle runs,
     DataCollection.last_btn_state s = LOW \/ DataCollection.last_btn_state s = HIGH ->
     DataCollection.held (DataCollection.last_btn_state s) idle = true ->
     idle = [] \/ DataCollection.btn_state s = DataCollection.last_btn_state s ->
     DataCollection.toggling (DataCollection.last_btn_state s) runs = true ->
     DataCollection.mode (DataCollection.run (idle ++ concat runs) s)
     = DataCollection.mode s
     /\ DataCollection.mode_changes
          (DataCollection.trace (DataCollection.run (idle ++ concat runs) s))
        = DataCollection.mode_changes (DataCollection.trace s))
  /\ (forall press release,
        DataCollection.btn_state s = HIGH ->
        DataCollection.last_btn_state s = HIGH ->
        DataCollection.sustained LOW press = true ->
        DataCollection.held HIGH release = true ->
        DataCollection.mode (DataCollection.run (press ++ release) s)
        = DataCollection.next_mode (DataCollection.mode s)
        /\ DataCollection.mode_changes
             (DataCollection.trace (DataCollection.run (press ++ release) s))
           = S (DataCollection.mode_changes (DataCollection.trace s))).
Proof.
  split.
  - intros idle runs Hlast Hidle Hrest Htog.
    destruct Hrest as [-> | Hb].
    + apply ButtonFacts.toggling_run; assumption.
    + rewrite ButtonFacts.run_app.
      destruct (ButtonFacts.steady_run _ idle s Hlast eq_refl Hb Hidle)
        as (Il & Im & Ic).
      destruct (ButtonFacts.toggling_run runs (DataCollection.run idle s))
        as (Tm & Tc).
      * rewrite Il. exact Hlast.
      * rewrite Il. exact Htog.
      * split; congruence.
  - intros press release Hb Hl Hp Hr. rewrite ButtonFacts.run_app.
    destruct (ButtonFacts.press_run press s Hb Hl Hp) as (_ & _ & Pm & Pc).
    destruct (ButtonFacts.released_run release (DataCollection.run press s) Hr)
      as (Rm & Rc).
    split; congruence.
Qed.

Lemma debounce_filters_bounces_and_commits_once_witness :
  let s := Examples.dc_rest DataCollection.MODE_IDLE in
  let idle := Examples.dc_hold HIGH 900 5 in
  let bounces := [ Examples.dc_hold LOW 1000 2;
                   Examples.dc_hold HIGH 1025 1;
                   Examples.dc_hold LOW 1040 3 ] in
  let press := Examples.dc_hold LOW 1000 4 in
  let release := Examples.dc_hold HIGH 1050 2 in
  (DataCollection.mode (DataCollection.run (idle ++ concat bounces) s)
   = DataCollection.MODE_IDLE
   /\ DataCollection.mode_changes
        (DataCollection.trace (DataCollection.run (idle ++ concat bounces) s)) = 0%nat)
  /\ (DataCollection.mode (DataCollection.run (press ++ release) s)
      = DataCollection.MODE_BACKGROUND
      /\ DataCollection.mode_changes
           (DataCollection.trace (DataCollection.run (press ++ release) s)) = 1%nat).
Proof.
  intros s idle bounces press release.
  destruct (debounce_filters_bounces_and_commits_once s) as [Hbounce Hpress].
  split.
  - apply (Hbounce idle bounces);
      [right; reflexivity | vm_compute; reflexivity | right; reflexivity
      | vm_compute; reflexivity].
  - apply (Hpress press release);
      [reflexivity | reflexivity | vm_compute; reflexivity | vm_compute; reflexivity].
Defined.

(** ** The mode cycle *)




(** * Further properties of the sketches *)

(** ** perfect-toast-machine.ino: start-up *)

(** X1. [sample_timestamp] of the firmware's [loop] is a local static
    initialized with [millis()] by the first call.  On that call the gate
    measures the time between two readings of the clock within the call
    itself: unless [SAMPLE_DELAY] ms pass between them the call is no
    sampling tick, it keeps the window, writes nothing and leaves the
    timestamp at the clock value of the initialization.  Whatever call
    returns, first or not, leaves the timestamp set. *)
Theorem first_call_sets_sample_timestamp (ei : EdgeImpulse.library)
    (e : PTM.loop_env) (s : PTM.state) :
  (PTM.sample_timestamp s = None ->
   PTM.tick_due e s
   = (SAMPLE_DELAY <=? ulong_sub (PTM.millis_gate e) (PTM.millis_static e))
   /\ (ulong_sub (PTM.millis_gate e) (PTM.millis_static e) < SAMPLE_DELAY ->
       PTM.loop e s = Some {| PTM.sample_timestamp := Some (PTM.millis_static e);
                              PTM.input_buf := PTM.input_buf s;
                              PTM.trace := PTM.trace s |}))
  /\ (forall s', PTM.loop e s = Some s' -> PTM.sample_timestamp s' <> None).
Proof.
  split.
  - intros Hs.
    assert (Hdue : PTM.tick_due e s
                   = (SAMPLE_DELAY <=? ulong_sub (PTM.millis_gate e) (PTM.millis_static e))).
    { unfold PTM.tick_due, sample_due. rewrite Hs. reflexivity. }
    split; [exact Hdue|].
    intros Hlt. rewrite PTMFacts.loop_not_due.
    + rewrite Hs. reflexivity.
    + rewrite Hdue. apply Z.leb_gt. exact Hlt.
  - intros s' Hloop. unfold PTM.loop in Hloop.
    destruct (sample_due _ _).
    + destruct (negb _); [injection Hloop as <-; discriminate|].
      destruct (negb _); [injection Hloop as <-; discriminate|].
      destruct (Window.push_frame _ _ _); [|discriminate Hloop].
      cbn [mbind option_bind] in Hloop.
      destruct (EdgeImpulse.run_classifier _ _).
      destruct (PTM.report _ _ _); [|discriminate Hloop].
      cbn [mbind option_bind] in Hloop.
      injection Hloop as <-. discriminate.
    + injection Hloop as <-. discriminate.
Qed.

Lemma first_call_sets_sample_timestamp_witness :
  let ei := Examples.stub Examples.f39 in
  let e := Examples.ptm_call 1234 HIGH Examples.readings_ok in
  let s := {| PTM.sample_timestamp := None;
              PTM.input_buf := Window.input_buf_init 20;
              PTM.trace := [] |} in
  PTM.tick_due e s = false
  /\ PTM.loop e s = Some {| PTM.sample_timestamp := Some 1234;
                            PTM.input_buf := Window.input_buf_init 20;
                            PTM.trace := [] |}.
Proof.
  intros ei e s.
  destruct (first_call_sets_sample_timestamp ei e s) as [Hfirst _].
  destruct (Hfirst eq_refl) as [Hdue Hloop].
  split.
  - rewrite Hdue. reflexivity.
  - apply Hloop. vm_compute. reflexivity.
Defined.

(** X2. [setup] of the firmware, once its two sensor initialization loops
    have ended: if the initial SGP30 read succeeds, [loop] starts from a
    zero-filled window of the declared size and an unset timestamp, the
    cancel pin configured as an output and never written, so at its
    de-asserted level; if the read fails, [setup] logs the error and spins
    for ever, so [loop] never runs. *)
Theorem setup_hands_over_zero_window (ei : EdgeImpulse.library) (e : PTM.setup_env) :
  if PTM.sgp_measure_signals_err e =? STATUS_OK then
    exists s,
      PTM.setup e = PTM.Booted s
      /\ PTM.sample_timestamp s = None
      /\ PTM.input_buf s
         = replicate (PTM.WINDOW_LEN * Window.NUM_CHANNELS) F32.zero
      /\ PTM.window_ok s
      /\ In (pinMode_output CANCEL_PIN) (PTM.trace s)
      /\ writes CANCEL_PIN (PTM.trace s) = 0%nat
      /\ pin_level CANCEL_PIN (PTM.trace s) = LOW
  else
    exists tr,
      PTM.setup e = PTM.Hung tr
      /\ last tr
         = Some (Serial_println (Some (Lit "Error: Could not read signal from SGP30"))).
Proof.
  unfold PTM.setup.
  destruct (PTM.sgp_measure_signals_err e =? STATUS_OK); cbn [negb].
  - eexists. split; [reflexivity|].
    cbn [PTM.sample_timestamp PTM.input_buf PTM.trace].
    split; [reflexivity|]. split; [reflexivity|].
    split; [unfold PTM.window_ok, Window.input_buf_init; cbn [PTM.input_buf];
            apply length_replicate|].
    split; [left; reflexivity|].
    assert (Hretry : forall (msg : string) (n : nat),
              Forall (fun ev => is_write CANCEL_PIN ev = false
                                /\ forall lvl, pin_step CANCEL_PIN lvl ev = lvl)
                     (flat_map (fun _ => [Serial_println (Some (Lit msg)); delay 1000])
                               (seq 0 n))).
    { intros msg n. generalize 0%nat. induction n as [|n IH]; intros k; cbn.
      - constructor.
      - repeat (constructor; [split; [reflexivity | intros; reflexivity]|]).
        apply IH. }
    match goal with
    | |- writes _ ?tr = _ /\ _ =>
        assert (Hquiet : Forall (fun ev => is_write CANCEL_PIN ev = false
                                  /\ forall lvl, pin_step CANCEL_PIN lvl ev = lvl) tr)
    end.
    { apply Forall_app. split.
      - repeat (constructor; [split; [reflexivity | intros; reflexivity]|]).
        constructor.
      - apply Forall_app. split; apply Hretry. }
    split.
    + unfold writes. rewrite filter_none; [reflexivity|].
      eapply Forall_impl; [exact Hquiet|]. intros ev [H _]. exact H.
    + unfold pin_level. apply fold_left_neutral.
      eapply Forall_impl; [exact Hquiet|]. intros ev [_ H]. intros a. apply H.
  - eexists. split; [reflexivity|]. apply last_snoc.
Qed.

(** X3. Warm-up of the window.  From the zero-filled window [setup] leaves,
    as long as no more than [WINDOW_LEN] frames have been pushed, the
    window is the frames pushed so far, standardized and oldest first, at
    its end, and slots still zero in front of them: the classifier is run
    on zero padding until [WINDOW_LEN] ticks have completed. *)
Theorem window_warm_up (ei : EdgeImpulse.library) (frames : list (list float32)) :
  (1 <= PTM.WINDOW_LEN)%nat ->
  Forall (fun frame => length frame = Window.NUM_CHANNELS) frames ->
  (length frames <= PTM.WINDOW_LEN)%nat ->
  Window.push_all PTM.WINDOW_LEN frames (Window.input_buf_init PTM.WINDOW_LEN)
  = Some (replicate ((PTM.WINDOW_LEN - length frames) * Window.NUM_CHANNELS) F32.zero
          ++ concat (map Window.standardize frames)).
Proof.
  intros HW Hfs HN.
  rewrite (WindowFifo.push_all_spec _ HW)
    by (unfold Window.input_buf_init; rewrite ?length_replicate; auto).
  f_equal. unfold Window.input_buf_init.
  rewrite drop_app_le by (rewrite length_replicate; nia).
  rewrite drop_replicate. f_equal. f_equal. nia.
Qed.

Lemma window_warm_up_witness :
  let ei := Examples.stub Examples.f39 in
  let frames := [ Window.frame_buf (Examples.readings_at 1);
                  Window.frame_buf (Examples.readings_at 2) ] in
  Window.push_all 20 frames (Window.input_buf_init 20)
  = Some (replicate (18 * 9) F32.zero ++ concat (map Window.standardize frames)).
Proof.
  intros ei frames.
  apply (window_warm_up ei frames).
  - vm_compute. lia.
  - repeat constructor.
  - vm_compute. lia.
Defined.

(** ** The window-slice callback, continued *)


(** ** The ammonia channel *)

(** X5. [nh3_v = (analogRead(NH3_PIN) * ADC_VOLTAGE) / ADC_MAX]: for every
    code of the 10-bit converter the voltage stored in the frame is not
    negative and is below [ADC_VOLTAGE], and it is zero for code 0 only. *)
Theorem nh3_v_within_adc_voltage (r : Window.readings) :
  0 <= Window.analogRead_NH3 r < Window.ADC_MAX ->
  F32.ltb (Window.nh3_v r) F32.zero = false
  /\ F32.ltb (Window.nh3_v r) (F32.of_double Window.ADC_VOLTAGE) = true
  /\ F32.is_zero (Window.nh3_v r) = (Window.analogRead_NH3 r =? 0).
Proof.
  intros Hr. unfold Window.nh3_v.
  set (volts := fun a =>
         F32.of_double
           (F32.div64 (F32.mul64 (F32.of_Z64 a) Window.ADC_VOLTAGE)
                      (F32.of_Z64 Window.ADC_MAX))).
  change (F32.of_double (F32.div64 _ _)) with (volts (Window.analogRead_NH3 r)).
  assert (Hall : forallb
            (fun k => let a := Z.of_nat k in
               negb (F32.ltb (volts a) F32.zero)
               && F32.ltb (volts a) (F32.of_double Window.ADC_VOLTAGE)
               && Bool.eqb (F32.is_zero (volts a)) (a =? 0))
            (seq 0 (Z.to_nat 1024)) = true) by (vm_compute; reflexivity).
  rewrite forallb_forall in Hall.
  specialize (Hall (Z.to_nat (Window.analogRead_NH3 r))).
  cbv zeta in Hall. unfold Window.ADC_MAX in Hr.
  rewrite Z2Nat.id in Hall by lia.
  destruct (andb_prop _ _ (Hall ltac:(apply in_seq; lia))) as [H12 H3].
  apply andb_prop in H12 as [H1 H2].
  split; [apply negb_true_iff; exact H1|]. split; [exact H2|].
  apply Bool.eqb_prop. exact H3.
Qed.

Lemma nh3_v_within_adc_voltage_witness :
  F32.ltb (Window.nh3_v Examples.readings_ok) F32.zero = false
  /\ F32.ltb (Window.nh3_v Examples.readings_ok) (F32.of_double Window.ADC_VOLTAGE) = true
  /\ F32.is_zero (Window.nh3_v Examples.readings_ok) = false.
Proof.
  apply (nh3_v_within_adc_voltage Examples.readings_ok). vm_compute. split; [discriminate | reflexivity].
Defined.

(** ** Formatting for the display *)

(** X6. The 20 bytes of [str_buf] hold the "%.0f" text of a finite
    estimate exactly when the estimate, rounded to an integer, lies
    between [-10^18] and [10^19], both excluded; zeros, infinities and NaN
    fit, and so does every [float] of magnitude below [2^59]. *)
Theorem str_buf_holds_moderate_estimates :
  (forall (sign : bool) (m : positive) (e : Z),
     PTM.str_buf_fits (S754_finite sign m e) = true
     <-> round_half_even m e < (if sign then 10 ^ 18 else 10 ^ 19))
  /\ (forall x : float32,
        (forall sign m e, x <> S754_finite sign m e) -> PTM.str_buf_fits x = true)
  /\ (forall (sign : bool) (m : positive) (e : Z),
        Z.pos m < 2 ^ 24 -> e <= 35 ->
        PTM.str_buf_fits (S754_finite sign m e) = true).
Proof.
  split; [exact str_buf_fits_finite|].
  split; [exact str_buf_fits_special | exact str_buf_fits_below_2_59].
Qed.

Lemma str_buf_holds_moderate_estimates_witness :
  PTM.str_buf_fits Examples.f39_9 = true
  /\ PTM.str_buf_fits (S754_infinity true) = true
  /\ (PTM.str_buf_fits Examples.f_2_64 = true <-> 2 ^ 64 < 10 ^ 19).
Proof.
  destruct str_buf_holds_moderate_estimates as (Hiff & Hspecial & Hsmall).
  split; [|split].
  - apply (Hsmall false 10459546%positive (-18)); vm_compute; reflexivity || discriminate.
  - apply Hspecial. intros sign m e. discriminate.
  - apply (Hiff false 8388608%positive 41).
Defined.

(** X7. The rolling-window test formats an [int] with "%i": whenever the
    cast [(int)(value + 0.5)] is defined, its text and the NUL fit the 20
    bytes of [str_buf]. *)
Theorem rolling_test_str_buf_holds_every_int (x : F32.float64) (z : Z) :
  F32.to_int x = Some z ->
  - 2 ^ 31 <= z < 2 ^ 31 /\ sprintf_i 20 z = Some (Fmt_i z).
Proof.
  intros Hx.
  assert (Hz : - 2 ^ 31 <= z < 2 ^ 31).
  { unfold F32.to_int in Hx. destruct x as [s|s| |s m e]; try discriminate Hx.
    - injection Hx as <-. split; [|reflexivity]. discriminate.
    - destruct (_ && _) eqn:Hr; [|discriminate Hx]. injection Hx as <-.
      apply andb_prop in Hr as [Hlo Hhi].
      apply Z.leb_le in Hlo. apply Z.ltb_lt in Hhi. split; assumption. }
  split; [exact Hz|].
  unfold sprintf_i, fmt_i_length.
  assert (Hd : (decimal_digits (Z.abs z) <= 10)%nat).
  { apply decimal_digits_le; [lia | lia |].
    change (10 ^ Z.of_nat 10) with 10000000000.
    change (2 ^ 31) with 2147483648 in Hz. lia. }
  destruct (Nat.leb_spec ((if z <? 0 then 1 else 0) + decimal_digits (Z.abs z) + 1) 20)
    as [_|Hgt]; [reflexivity|].
  destruct (z <? 0); lia.
Qed.

Lemma rolling_test_str_buf_holds_every_int_witness :
  - 2 ^ 31 <= 40 < 2 ^ 31 /\ sprintf_i 20 40 = Some (Fmt_i 40).
Proof.
  apply (rolling_test_str_buf_holds_every_int
           (F32.add64 (F32.to_double Examples.f39_9) (F32.literal64 5 10)) 40).
  vm_compute. reflexivity.
Defined.

(** X8. "Round prediction to nearest second" in the rolling-window test is
    [(int)(value + 0.5)], which truncates toward zero: an estimate that is
    a multiple of one half, [k / 2], is displayed as the quotient of
    [k + 1] by 2 truncated toward zero.  Estimates from zero upwards are
    rounded to the nearest second, halves upwards; negative whole
    estimates are displayed one second too high. *)
Theorem rolling_test_rounds_by_truncation (k : Z) :
  -2048 <= k <= 2048 ->
  let value := F32.div (F32.of_Z k) (F32.of_Z 2) in
  F32.to_int (F32.add64 (F32.to_double value) (F32.literal64 5 10))
  = Some (Z.quot (k + 1) 2).
Proof.
  intros Hk.
  assert (Hall : forallb
            (fun n => let k := Z.of_nat n - 2048 in
               match F32.to_int (F32.add64 (F32.to_double (F32.div (F32.of_Z k) (F32.of_Z 2)))
                                           (F32.literal64 5 10)) with
               | Some z => z =? Z.quot (k + 1) 2
               | None => false
               end)
            (seq 0 (Z.to_nat 4097)) = true) by (vm_compute; reflexivity).
  rewrite forallb_forall in Hall.
  specialize (Hall (Z.to_nat (k + 2048))). cbv zeta in Hall |- *.
  rewrite Z2Nat.id in Hall by lia.
  replace (k + 2048 - 2048) with k in Hall by lia.
  specialize (Hall ltac:(apply in_seq; lia)).
  destruct (F32.to_int _) as [z|]; [|discriminate Hall].
  apply Z.eqb_eq in Hall. rewrite Hall. reflexivity.
Qed.

Lemma rolling_test_rounds_by_truncation_witness :
  F32.to_int (F32.add64 (F32.to_double (F32.div (F32.of_Z 79) (F32.of_Z 2)))
                        (F32.literal64 5 10)) = Some 40
  /\ F32.to_int (F32.add64 (F32.to_double (F32.div (F32.of_Z (-6)) (F32.of_Z 2)))
                           (F32.literal64 5 10)) = Some (-2).
Proof.
  split.
  - apply (rolling_test_rounds_by_truncation 79). lia.
  - apply (rolling_test_rounds_by_truncation (-6)). lia.
Defined.

(** ** The toaster control test *)

(** X9. One call of [loop] of the toaster control test.  The cancel pin is
    written only when the toaster is on and the button reads pressed: then
    it is driven HIGH, held for one second and driven LOW again, so the
    call leaves it LOW; any other call leaves the pin alone.  The display
    shows "Toasting" while the toaster is on and is blank otherwise.  From
    [setup] on, the pin is LOW after every call. *)
Theorem control_test_pulses_cancel (e : ControlTest.loop_env) (tr : list event) :
  let toasting := negb (ControlTest.digitalRead_TOASTING e =? 0) in
  let pushed := toasting && (ControlTest.digitalRead_BTN e =? 0) in
  let tr' := ControlTest.loop e tr in
  writes CANCEL_PIN tr' = (writes CANCEL_PIN tr + if pushed then 2 else 0)%nat
  /\ pin_level CANCEL_PIN tr' = (if pushed then LOW else pin_level CANCEL_PIN tr)
  /\ (if pushed then
        exists shown, tr' = tr ++ shown ++ ControlTest.cancel_pulse ++ [delay 10]
                      /\ writes CANCEL_PIN shown = 0%nat
      else True)
  /\ lcd tr' = (if toasting then [(Lit "Toasting", 50, 100)] else [])
  /\ (forall envs, pin_level CANCEL_PIN (ControlTest.run envs ControlTest.setup) = LOW).
Proof.
  assert (Hlevel : forall e0 tr0,
            pin_level CANCEL_PIN tr0 = LOW ->
            pin_level CANCEL_PIN (ControlTest.loop e0 tr0) = LOW).
  { intros e0 tr0 H0. unfold ControlTest.loop.
    rewrite pin_level_app, H0.
    destruct (negb (ControlTest.digitalRead_TOASTING e0 =? 0));
      [destruct (ControlTest.digitalRead_BTN e0 =? 0)|]; reflexivity. }
  assert (Hrun : forall envs tr0,
            pin_level CANCEL_PIN tr0 = LOW ->
            pin_level CANCEL_PIN (ControlTest.run envs tr0) = LOW).
  { unfold ControlTest.run.
    induction envs as [|e1 rest IH]; intros tr0 H0; cbn [fold_left]; auto. }
  cbv zeta. unfold ControlTest.loop, lcd.
  rewrite writes_app, pin_level_app, display_app.
  destruct (display tr) as [sprite shown0].
  destruct (negb (ControlTest.digitalRead_TOASTING e =? 0));
    [destruct (ControlTest.digitalRead_BTN e =? 0)|]; cbn [andb].
  - split; [reflexivity|]. split; [reflexivity|]. split.
    + exists [spr_fillRect; spr_drawString (Lit "Toasting") 50 100; spr_pushSprite].
      split; reflexivity.
    + split; [reflexivity|]. intros envs. apply Hrun. reflexivity.
  - split; [cbn; lia|]. split; [reflexivity|]. split; [exact I|].
    split; [reflexivity|]. intros envs. apply Hrun. reflexivity.
  - split; [cbn; lia|]. split; [reflexivity|]. split; [exact I|].
    split; [reflexivity|]. intros envs. apply Hrun. reflexivity.
Qed.

(** ** Toast odor data collection, continued *)

(** X10. The mode of the data collection sketch never leaves the four
    labels: from a mode below [NUM_MODES], whatever the button and the
    clock do, every run of [loop] calls ends in a mode below [NUM_MODES]. *)
Theorem mode_stays_below_num_modes (envs : list DataCollection.loop_env)
    (s : DataCollection.state) :
  0 <= DataCollection.mode s < DataCollection.NUM_MODES ->
  0 <= DataCollection.mode (DataCollection.run envs s) < DataCollection.NUM_MODES.
Proof.
  revert s. induction envs as [|e rest IH]; intros s Hs; [exact Hs|].
  change (DataCollection.run (e :: rest) s)
    with (DataCollection.run rest (DataCollection.loop e s)).
  apply IH.
  destruct (ButtonFacts.loop_button e s) as (_ & _ & _ & Hm & _).
  cbv zeta in Hm. rewrite Hm.
  destruct (_ && _); [|exact Hs].
  unfold DataCollection.next_mode, DataCollection.NUM_MODES, uint8 in *.
  rewrite Z.mod_small by lia.
  destruct (Z.leb_spec 4 (DataCollection.mode s + 1));
    unfold DataCollection.MODE_IDLE; lia.
Qed.

Lemma mode_stays_below_num_modes_witness :
  0 <= DataCollection.mode
         (DataCollection.run
            (Examples.dc_hold HIGH 100 1 ++ Examples.dc_hold LOW 1000 5)
            (DataCollection.init []))
    < DataCollection.NUM_MODES.
Proof.
  apply (mode_stays_below_num_modes
           (Examples.dc_hold HIGH 100 1 ++ Examples.dc_hold LOW 1000 5)
           (DataCollection.init [])).
  vm_compute. split; [discriminate | reflexivity].
Defined.

(** X11. "Only collect if not in idle": a call of [loop] in IDLE that
    commits no press leaves the mode IDLE, prints and draws nothing, and
    does not renew the sample timestamp. *)
Theorem idle_collects_nothing (e : DataCollection.loop_env) (s : DataCollection.state) :
  DataCollection.mode s = DataCollection.MODE_IDLE ->
  DataCollection.commits e s && (uint8 (DataCollection.digitalRead_BTN e) =? LOW) = false ->
  DataCollection.mode (DataCollection.loop e s) = DataCollection.MODE_IDLE
  /\ DataCollection.trace (DataCollection.loop e s) = DataCollection.trace s
  /\ DataCollection.sample_timestamp (DataCollection.loop e s)
     = Some (default (DataCollection.millis_static_sample e)
                     (DataCollection.sample_timestamp s)).
Proof.
  intros Hm Hno.
  unfold DataCollection.commits, DataCollection.settled, DataCollection.edge_time in Hno.
  unfold DataCollection.loop, DataCollection.debounce.
  destruct (DEBOUNCE_DELAY <? _); cbn [andb] in Hno.
  - destruct (negb (DataCollection.digitalRead_BTN e =? DataCollection.btn_state s));
      cbn [andb] in Hno.
    + rewrite Hno, Hm. cbn. rewrite app_nil_r. auto.
    + rewrite Hm. cbn. rewrite app_nil_r. auto.
  - rewrite Hm. cbn. rewrite app_nil_r. auto.
Qed.

Lemma idle_collects_nothing_witness :
  let e := Examples.dc_call 5000 HIGH in
  let s := Examples.dc_rest DataCollection.MODE_IDLE in
  DataCollection.mode (DataCollection.loop e s) = DataCollection.MODE_IDLE
  /\ DataCollection.trace (DataCollection.loop e s) = []
  /\ DataCollection.sample_timestamp (DataCollection.loop e s) = Some 900.
Proof.
  intros e s. apply (idle_collects_nothing e s); reflexivity.
Defined.

(** X12. A sampling tick of the data collection sketch.  In a collecting
    mode, on a call that commits no button reading, when [SAMPLE_DELAY] ms
    have passed and both status-returning sensor reads succeed, [loop]
    prints exactly one CSV row: the time since BACKGROUND was entered
    (the difference of the two timestamps, modulo 2^32), the readings,
    and the mode as the label.  When a read fails it prints the error
    line instead of a row.  Either way the sample timestamp is renewed. *)
Theorem collecting_tick_prints_one_row (e : DataCollection.loop_env)
    (s : DataCollection.state) :
  DataCollection.MODE_IDLE < DataCollection.mode s ->
  DataCollection.commits e s = false ->
  sample_due (DataCollection.millis_gate e)
    (default (DataCollection.millis_static_sample e)
             (DataCollection.sample_timestamp s)) = true ->
  let s' := DataCollection.loop e s in
  DataCollection.mode s' = DataCollection.mode s
  /\ DataCollection.sample_timestamp s' = Some (DataCollection.millis_stamp e)
  /\ DataCollection.trace s'
     = DataCollection.trace s
       ++ (if Window.sensors_ok (DataCollection.sensors e) then
             DataCollection.csv_row (DataCollection.millis_stamp e)
               (default (DataCollection.millis_static_start e)
                        (DataCollection.start_timestamp s))
               (DataCollection.mode s) (DataCollection.sensors e)
           else
             [Serial_println (Some (Lit (PTM.fault_message (DataCollection.sensors e))))]).
Proof.
  intros Hm Hno Hdue s'. unfold s'.
  unfold DataCollection.commits, DataCollection.settled, DataCollection.edge_time in Hno.
  unfold DataCollection.loop, DataCollection.debounce.
  assert (Hidle : (DataCollection.MODE_IDLE <? DataCollection.mode s) = true)
    by (apply Z.ltb_lt; exact Hm).
  unfold Window.sensors_ok, PTM.fault_message.
  destruct (DEBOUNCE_DELAY <? _); cbn [andb] in Hno.
  - rewrite Hno. rewrite Hidle, Hdue. cbn [andb DataCollection.mode
      DataCollection.sample_timestamp DataCollection.trace].
    split; [reflexivity|]. split; [reflexivity|].
    destruct (Window.bme680_read_sensor_data _ =? 0); cbn [negb andb];
      [destruct (Window.sgp_err _ =? STATUS_OK); cbn [negb]|]; reflexivity.
  - rewrite Hidle, Hdue. cbn [andb DataCollection.mode
      DataCollection.sample_timestamp DataCollection.trace].
    split; [reflexivity|]. split; [reflexivity|].
    destruct (Window.bme680_read_sensor_data _ =? 0); cbn [negb andb];
      [destruct (Window.sgp_err _ =? STATUS_OK); cbn [negb]|]; reflexivity.
Qed.

Lemma collecting_tick_prints_one_row_witness :
  let e := Examples.dc_call 5000 HIGH in
  let s := Examples.dc_rest DataCollection.MODE_TOASTING in
  DataCollection.mode (DataCollection.loop e s) = DataCollection.MODE_TOASTING
  /\ DataCollection.sample_timestamp (DataCollection.loop e s) = Some 5000
  /\ DataCollection.trace (DataCollection.loop e s)
     = DataCollection.csv_row 5000 900 DataCollection.MODE_TOASTING Examples.readings_ok.
Proof.
  intros e s.
  apply (collecting_tick_prints_one_row e s); reflexivity.
Defined.

(** ** The static inference test *)

(** X13. The test sample of the static inference test is a window of
    twenty frames of [NUM_CHANNELS] values, twenty times the same frame,
    so a request for any whole frame of it is in bounds and is served
    that frame.  A call of [loop] runs the classifier exactly once and
    writes no pin and nothing on the display. *)
Theorem static_sample_is_twenty_frames (ei : EdgeImpulse.library) :
  length StaticTest.input_buf = (20 * Window.NUM_CHANNELS)%nat
  /\ StaticTest.input_buf
     = concat (replicate 20 (take Window.NUM_CHANNELS StaticTest.input_buf))
  /\ (forall k : nat, (k < 20)%nat ->
        fst (Window.get_signal_data StaticTest.input_buf
               (k * Window.NUM_CHANNELS) Window.NUM_CHANNELS)
        = Some <$> take Window.NUM_CHANNELS StaticTest.input_buf)
  /\ (forall tr : list event,
        inferences (StaticTest.loop tr) = S (inferences tr)
        /\ writes CANCEL_PIN (StaticTest.loop tr) = writes CANCEL_PIN tr
        /\ pin_level CANCEL_PIN (StaticTest.loop tr) = pin_level CANCEL_PIN tr
        /\ lcd (StaticTest.loop tr) = lcd tr).
Proof.
  split; [reflexivity|]. split; [vm_compute; reflexivity|]. split.
  - intros k Hk.
    do 20 (destruct k as [|k]; [vm_compute; reflexivity|]). lia.
  - intros tr. unfold StaticTest.loop.
    destruct (EdgeImpulse.run_classifier _ _) as [res result].
    change (run_classifier_called :: ?l ++ ?r)
      with ([run_classifier_called] ++ l ++ r).
    split; [|split; [|split]].
    + rewrite !inferences_app, PTMFacts.print_predictions_inferences. cbn. lia.
    + rewrite !writes_app, PTMFacts.print_predictions_writes. cbn. lia.
    + rewrite !pin_level_app, !fold_left_app, PTMFacts.print_predictions_pin.
      reflexivity.
    + unfold lcd. rewrite !display_app, !fold_left_app,
        PTMFacts.print_predictions_display.
      cbn. destruct (display tr). reflexivity.
Qed.
